(** * YandexGeocoder: a shallow embedding of [src/yandex_geocoder.py]

    The class [YandexGeocoder] is a thin client over a remote geocoding
    API.  Its methods are embedded as computations in a small monad that
    threads the attributes of the instance and the log of the requests that
    were sent, and that either returns a value or raises a Python
    exception.  The remote service, the [decimal] module and the
    transcendental functions of [math] are not part of the repository:
    they are parameters of the development. *)

From Stdlib Require Import ZArith List String Ascii Bool Lia Floats.
From Stdlib Require Import DecimalString DecimalPos DecimalZ.
Import ListNotations.

Local Open Scope string_scope.
Local Open Scope Z_scope.

(* ================================================================== *)
(** ** Python values and built-in operations *)
(* ================================================================== *)

Module Py.

(** Built-in exceptions that the code of the class can let escape. *)
Inductive builtin_exn : Type :=
| KeyError
| IndexError
| TypeError
| ValueError
| AttributeError
| OverflowError
| ZeroDivisionError
| JSONDecodeError       (* raised by [response.json()] *)
| InvalidOperation      (* raised by [decimal.Decimal(...)] *)
| RequestException.     (* raised by [requests.get] on a transport failure *)

(** Modelled from the spec: [src/exceptions.py] is not part of the sources;
    the three exception classes imported from it are the spec's
    [AuthenticationError] ([InvalidKey], no argument), [NotFoundError]
    ([NothingFound], carrying a message) and [UnexpectedResponseError]
    ([UnexpectedResponse], carrying a message). *)
Inductive exn : Type :=
| InvalidKey
| NothingFound (msg : string)
| UnexpectedResponse (msg : string)
| Builtin (e : builtin_exn).

(** The result of evaluating a Python expression. *)
Inductive outcome (A : Type) : Type :=
| Return (a : A)
| Raise (e : exn).
Arguments Return {A} a.
Arguments Raise {A} e.

(** One of the three exceptions that the service declares. *)
Definition named_error (e : exn) : bool :=
  match e with
  | Builtin _ => false
  | _ => true
  end.

(** Values produced by [json.loads]: [None], [bool], [int], [float],
    [str], [list] and [dict].  A [dict] is kept as the list of its items;
    [str] values are kept as their UTF-8 bytes. *)
#[warnings="-register-all"]
Inductive json : Type :=
| JNull
| JBool (b : bool)
| JInt (z : Z)
| JFloat (f : float)
| JString (s : string)
| JArray (l : list json)
| JObject (items : list (string * json)).

(** The numbers that [calculate_distance] returns: the [int] literal [0]
    or a [float]. *)
Inductive number : Type :=
| PyInt (z : Z)
| PyFloat (f : float).

(** The one-character string holding a double quote. *)
Definition dquote : string := String (ascii_of_nat 34) EmptyString.

(** Truth value of an object, as tested by [not data]. *)
Definition truthy (v : json) : bool :=
  match v with
  | JNull => false
  | JBool b => b
  | JInt z => negb (z =? 0)
  | JFloat f => negb (PrimFloat.eqb f 0%float)
  | JString s => negb (String.eqb s "")
  | JArray l => match l with [] => false | _ => true end
  | JObject l => match l with [] => false | _ => true end
  end.

Fixpoint dict_get (items : list (string * json)) (k : string) : option json :=
  match items with
  | [] => None
  | (k', v) :: rest => if String.eqb k' k then Some v else dict_get rest k
  end.

(** [v[k]] for a string key [k]. *)
Definition getitem (v : json) (k : string) : outcome json :=
  match v with
  | JObject items =>
      match dict_get items k with
      | Some x => Return x
      | None => Raise (Builtin KeyError)
      end
  | _ => Raise (Builtin TypeError)
  end.

(** [v[0]].  The first character of a [str] is kept as its first byte:
    whatever it is, the subscript by a key that follows raises
    [TypeError]. *)
Definition getitem0 (v : json) : outcome json :=
  match v with
  | JArray (x :: _) => Return x
  | JArray [] => Raise (Builtin IndexError)
  | JString (String c _) => Return (JString (String c EmptyString))
  | JString EmptyString => Raise (Builtin IndexError)
  | JObject _ => Raise (Builtin KeyError)
  | _ => Raise (Builtin TypeError)
  end.

(** [s.split(c)] for a separator of one character: the string is cut at
    every occurrence of [c]; empty pieces are kept. *)
Fixpoint split_on (c : ascii) (s : string) : list string :=
  match s with
  | EmptyString => [EmptyString]
  | String a s' =>
      if Ascii.eqb a c then EmptyString :: split_on c s'
      else match split_on c s' with
           | [] => [String a EmptyString]
           | t :: ts => String a t :: ts
           end
  end.

(** [v.split(" ")]: only [str] has the method. *)
Definition split_space (v : json) : outcome (list string) :=
  match v with
  | JString s => Return (split_on " "%char s)
  | _ => Raise (Builtin AttributeError)
  end.

(** [needle in hay] for two [str]: substring search. *)
Fixpoint str_in (needle hay : string) : bool :=
  String.prefix needle hay
  || match hay with
     | EmptyString => false
     | String _ hay' => str_in needle hay'
     end.

(** [needle in v] for a [str] needle and any value [v]. *)
Definition contains (needle : string) (v : json) : outcome bool :=
  match v with
  | JString s => Return (str_in needle s)
  | JArray l =>
      Return (existsb (fun x => match x with
                                | JString s => String.eqb s needle
                                | _ => false
                                end) l)
  | JObject items =>
      Return (match dict_get items needle with Some _ => true | None => false end)
  | _ => Raise (Builtin TypeError)
  end.

(** [str(n)] for an [int]. *)
Definition str_int (n : Z) : string := NilZero.string_of_int (Z.to_int n).

(** [repr(b)] for a [bytes] object, as the f-string [{response.content}]
    prints it. *)
Definition hexdigit (n : N) : ascii :=
  match n with
  | 0 => "0" | 1 => "1" | 2 => "2" | 3 => "3" | 4 => "4" | 5 => "5"
  | 6 => "6" | 7 => "7" | 8 => "8" | 9 => "9" | 10 => "a" | 11 => "b"
  | 12 => "c" | 13 => "d" | 14 => "e" | _ => "f"
  end%N%char.

Definition backslash : ascii := ascii_of_nat 92.
Definition squote : ascii := ascii_of_nat 39.

Fixpoint has_char (c : ascii) (s : string) : bool :=
  match s with
  | EmptyString => false
  | String a s' => Ascii.eqb a c || has_char c s'
  end.

Definition repr_byte (quote c : ascii) : string :=
  let n := N_of_ascii c in
  if Ascii.eqb c quote || Ascii.eqb c backslash then String backslash (String c EmptyString)
  else if (n =? 9)%N then String backslash "t"
  else if (n =? 10)%N then String backslash "n"
  else if (n =? 13)%N then String backslash "r"
  else if (n <? 32)%N || (127 <=? n)%N then
    String backslash (String "x" (String (hexdigit (n / 16)) (String (hexdigit (n mod 16)) EmptyString)))
  else String c EmptyString.

Fixpoint repr_bytes_body (quote : ascii) (s : string) : string :=
  match s with
  | EmptyString => EmptyString
  | String c s' => repr_byte quote c ++ repr_bytes_body quote s'
  end.

Definition repr_bytes (s : string) : string :=
  let quote :=
    if has_char squote s && negb (has_char (ascii_of_nat 34) s)
    then ascii_of_nat 34 else squote in
  String "b" (String quote (repr_bytes_body quote s ++ String quote EmptyString)).

(** [math.sqrt]: the IEEE square root, with [ValueError] outside the
    domain. *)
Definition math_sqrt (x : float) : outcome float :=
  if PrimFloat.ltb x 0%float then Raise (Builtin ValueError)
  else Return (PrimFloat.sqrt x).

(** [math.pi / 180], the factor of [math.radians]. *)
Definition degToRad : float := (0x1.921fb54442d18p+1 / 180)%float.

End Py.

Import Py.

(* ================================================================== *)
(** ** The outside world: [decimal], [math] and the remote service *)
(* ================================================================== *)

(** The interface of [decimal.Decimal] that the class uses. *)
Class DecimalOps (D : Type) : Type := {
  (** [Decimal(s)] for a [str]; [None] when it raises [InvalidOperation]. *)
  Decimal : string -> option D;
  (** [str(d)], which is also what an f-string prints for [{d}]. *)
  Decimal_str : D -> string;
  (** [float(d)]; [None] when it raises [ValueError] (a signalling NaN). *)
  Decimal_float : D -> option float
}.

(** The objects that [find_address] formats with [str(...)]. *)
Class PyStr (A : Type) : Type := py_str : A -> string.

#[global] Instance PyStr_string : PyStr string := fun s => s.
#[global] Instance PyStr_Decimal {D} {dec : DecimalOps D} : PyStr D := Decimal_str.

(** What a call into the C library can set [errno] to; [math] turns the
    first into [ValueError] and the second into [OverflowError]. *)
Inductive math_error : Type := EDOM | ERANGE.

Definition raise_math {A} (e : math_error) : outcome A :=
  match e with
  | EDOM => Raise (Builtin ValueError)
  | ERANGE => Raise (Builtin OverflowError)
  end.

(** [math.sin], [math.cos], [math.atan2] and the float power [x ** y],
    which the class only uses with a positive exponent: each returns a
    float or rejects its argument. *)
Class Libm : Type := {
  math_sin : float -> math_error + float;
  math_cos : float -> math_error + float;
  math_atan2 : float -> float -> math_error + float;
  float_pow : float -> float -> math_error + float
}.

(** A request as [requests.get(url, params=...)] sends it. *)
Record Request : Type := {
  url : string;
  params : list (string * string)
}.

(** A response: its status, its raw body and the body decoded by
    [response.json()] ([None] when it is not JSON). *)
Record Response : Type := {
  status_code : Z;
  content : string;
  json_body : option json
}.

(** The remote service answers a request knowing the requests sent
    before it; [None] is a transport failure. *)
Definition Remote : Type := list Request -> Request -> option Response.

(* ================================================================== *)
(** ** The instance and the monad of its methods *)
(* ================================================================== *)

(** The attributes of an instance; an attribute is [None] until
    [__init__] assigns it. *)
Record YandexGeocoder (D : Type) : Type := {
  api_key : option string;
  long_moscow_ring_road : option D;
  lat_moscow_ring_road : option D
}.
Arguments api_key {D} _.
Arguments long_moscow_ring_road {D} _.
Arguments lat_moscow_ring_road {D} _.

(** The state a method runs in: the instance and the requests sent so
    far, oldest first. *)
Record World (D : Type) : Type := {
  self : YandexGeocoder D;
  sent : list Request
}.
Arguments self {D} _.
Arguments sent {D} _.

Definition M (D A : Type) : Type := World D -> outcome A * World D.

Definition ret {D A} (a : A) : M D A := fun w => (Return a, w).

Definition raise {D A} (e : exn) : M D A := fun w => (Raise e, w).

Definition bind {D A B} (m : M D A) (k : A -> M D B) : M D B :=
  fun w =>
    match m w with
    | (Return a, w') => k a w'
    | (Raise e, w') => (Raise e, w')
    end.

Definition lift {D A} (o : outcome A) : M D A := fun w => (o, w).

Declare Scope py_scope.
Delimit Scope py_scope with py.
Notation "x <- m ;; k" := (bind m (fun x => k))
  (at level 61, m at next level, right associativity) : py_scope.
Notation "' pat <- m ;; k" := (bind m (fun x => let 'pat := x in k))
  (at level 61, pat pattern, m at next level, right associativity) : py_scope.
Notation "m ;;; k" := (bind m (fun _ => k))
  (at level 61, right associativity) : py_scope.
Local Open Scope py_scope.

Definition of_option {A} (e : builtin_exn) (o : option A) : outcome A :=
  match o with
  | Some a => Return a
  | None => Raise (Builtin e)
  end.

Definition of_math (r : math_error + float) : outcome float :=
  match r with
  | inr x => Return x
  | inl e => raise_math e
  end.

(* ================================================================== *)
(** ** The methods of [YandexGeocoder] *)
(* ================================================================== *)

Section Geocoder.

Context {D : Type} {dec : DecimalOps D} {libm : Libm}.
Variable remote : Remote.

(** Reading an attribute of [self]; [AttributeError] when it is not set. *)
Definition getattr {A} (field : YandexGeocoder D -> option A) : M D A :=
  fun w => (of_option AttributeError (field (self w)), w).

(** Assigning an attribute of [self]. *)
Definition setattr (update : YandexGeocoder D -> YandexGeocoder D) : M D unit :=
  fun w => (Return tt, {| self := update (self w); sent := sent w |}).

(** [requests.get(url, params=...)]: the request is sent, and the remote
    service answers or the transport fails. *)
Definition requests_get (u : string) (ps : list (string * string)) : M D Response :=
  fun w =>
    let req := {| url := u; params := ps |} in
    (of_option RequestException (remote (sent w) req),
     {| self := self w; sent := sent w ++ [req] |}).

(** The request that [request_geocoder] builds for a location. *)
Definition geocode_request (key location : string) : Request :=
  {| url := "https://geocode-maps.yandex.ru/1.x/";
     params := [("format", "json"); ("apikey", key);
                ("geocode", location); ("lang", "en_RU")] |}.

Definition request_geocoder (location : string) : M D json :=
  key <- getattr api_key ;;
  response <- requests_get "https://geocode-maps.yandex.ru/1.x/"
                [("format", "json"); ("apikey", key);
                 ("geocode", location); ("lang", "en_RU")] ;;
  if status_code response =? 200 then
    body <- lift (of_option JSONDecodeError (json_body response)) ;;
    lift (getitem body "response")
  else if status_code response =? 400 then
    raise InvalidKey
  else
    raise (UnexpectedResponse
             ("status_code=" ++ str_int (status_code response)
              ++ ", body=" ++ repr_bytes (content response))).

Definition find_coordinates (address : string) : M D (D * D) :=
  response <- request_geocoder address ;;
  collection <- lift (getitem response "GeoObjectCollection") ;;
  data <- lift (getitem collection "featureMember") ;;
  if negb (truthy data) then
    raise (NothingFound ("Nothing found for " ++ dquote ++ address ++ dquote))
  else
    feature <- lift (getitem0 data) ;;
    geo_object <- lift (getitem feature "GeoObject") ;;
    point <- lift (getitem geo_object "Point") ;;
    coordinates <- lift (getitem point "pos") ;;
    tokens <- lift (split_space coordinates) ;;
    match tokens with
    | [longitude; latitude] =>
        lon <- lift (of_option InvalidOperation (Decimal longitude)) ;;
        lat <- lift (of_option InvalidOperation (Decimal latitude)) ;;
        ret (lon, lat)
    | _ => raise (Builtin ValueError)
    end.

Definition find_address {A B} {strA : PyStr A} {strB : PyStr B}
    (longitude : A) (latitude : B) : M D json :=
  let coordinates := py_str longitude ++ "," ++ py_str latitude in
  response <- request_geocoder coordinates ;;
  collection <- lift (getitem response "GeoObjectCollection") ;;
  data <- lift (getitem collection "featureMember") ;;
  if negb (truthy data) then
    raise (NothingFound ("Nothing found for " ++ dquote ++ py_str longitude
                         ++ ", " ++ py_str latitude ++ dquote))
  else
    feature <- lift (getitem0 data) ;;
    geo_object <- lift (getitem feature "GeoObject") ;;
    meta <- lift (getitem geo_object "metaDataProperty") ;;
    geocoder_meta <- lift (getitem meta "GeocoderMetaData") ;;
    lift (getitem geocoder_meta "text").

(** [math.radians(d)] for a [Decimal]: [float(d) * (pi / 180)]. *)
Definition radians (d : D) : outcome float :=
  match Decimal_float d with
  | Some x => Return (x * degToRad)%float
  | None => Raise (Builtin ValueError)
  end.

(** The [else] branch of [calculate_distance]. *)
Definition distance_branch (longitude latitude : D) : M D number :=
  let R := 6373%float in
  ref_lat <- getattr lat_moscow_ring_road ;;
  lat1 <- lift (radians ref_lat) ;;
  ref_lon <- getattr long_moscow_ring_road ;;
  lon1 <- lift (radians ref_lon) ;;
  lat2 <- lift (radians latitude) ;;
  lon2 <- lift (radians longitude) ;;
  let dlon := (lon2 - lon1)%float in
  let dlat := (lat2 - lat1)%float in
  s1 <- lift (of_math (math_sin (dlat / 2)%float)) ;;
  s1sq <- lift (of_math (float_pow s1 2%float)) ;;
  c1 <- lift (of_math (math_cos lat1)) ;;
  c2 <- lift (of_math (math_cos lat2)) ;;
  s2 <- lift (of_math (math_sin (dlon / 2)%float)) ;;
  s2sq <- lift (of_math (float_pow s2 2%float)) ;;
  let a := (s1sq + c1 * c2 * s2sq)%float in
  ra <- lift (math_sqrt a) ;;
  rb <- lift (math_sqrt (1 - a)%float) ;;
  t <- lift (of_math (math_atan2 ra rb)) ;;
  let c := (2 * t)%float in
  let distance := (R * c)%float in
  ret (PyFloat distance).

(** [calculate_distance(address)]; [address] is [None] by default. *)
Definition calculate_distance (address : option string) : M D number :=
  match address with
  | Some addr =>
      '(longitude, latitude) <- find_coordinates addr ;;
      canonical <- find_address longitude latitude ;;
      marked <- lift (contains "MKAD" canonical) ;;
      if (marked : bool) then ret (PyInt 0)
      else distance_branch longitude latitude
  | None => raise (Builtin TypeError)
  end.

(** [__init__(self, api_key)]. *)
Definition __init__ (key : string) : M D unit :=
  setattr (fun o => {| api_key := Some key;
                       long_moscow_ring_road := long_moscow_ring_road o;
                       lat_moscow_ring_road := lat_moscow_ring_road o |}) ;;;
  '(lon, lat) <- find_coordinates "Moscow Ring Road" ;;
  setattr (fun o => {| api_key := api_key o;
                       long_moscow_ring_road := Some lon;
                       lat_moscow_ring_road := lat_moscow_ring_road o |}) ;;;
  setattr (fun o => {| api_key := api_key o;
                       long_moscow_ring_road := long_moscow_ring_road o;
                       lat_moscow_ring_road := Some lat |}).

(** A fresh object, before [__init__] runs. *)
Definition blank : YandexGeocoder D :=
  {| api_key := None; long_moscow_ring_road := None; lat_moscow_ring_road := None |}.

(** The expression [YandexGeocoder(key)], evaluated when [log] has been
    sent already: the instance, or the exception of [__init__], and the
    requests sent by then. *)
Definition new (key : string) (log : list Request)
  : outcome (YandexGeocoder D) * list Request :=
  match __init__ key {| self := blank; sent := log |} with
  | (Return _, w) => (Return (self w), sent w)
  | (Raise e, w) => (Raise e, sent w)
  end.

End Geocoder.

(* ================================================================== *)
(** ** A mocked world, used to run the methods on concrete inputs *)
(* ================================================================== *)

Module Mock.

(** A finite [Decimal]: sign, coefficient and exponent, as
    [Decimal.as_tuple()] shows them.  This stand-in covers the plain
    numerals [[sign] digits [. digits]] in ASCII that the geocoder sends,
    and is only run on such inputs.  [decimal.Decimal] accepts more, which
    the constructor below refuses: exponent notation, white space around
    the numeral, underscores, digits outside ASCII, and the infinities and
    NaNs, which the record cannot hold. *)
Record decimal : Type := {
  sign : bool;
  coefficient : N;
  exponent : Z
}.

Definition digit_of (c : ascii) : option N :=
  let n := N_of_ascii c in
  if (48 <=? n)%N && (n <=? 57)%N then Some (n - 48)%N else None.

Fixpoint read_fraction (s : string) (acc : N) (e : Z) (seen : bool)
  : option (N * Z * bool) :=
  match s with
  | EmptyString => Some (acc, e, seen)
  | String c s' =>
      match digit_of c with
      | Some d => read_fraction s' (10 * acc + d)%N (e - 1) true
      | None => None
      end
  end.

Fixpoint read_integer (s : string) (acc : N) (seen : bool)
  : option (N * Z * bool) :=
  match s with
  | EmptyString => Some (acc, 0, seen)
  | String c s' =>
      if Ascii.eqb c "."%char then read_fraction s' acc 0 seen
      else match digit_of c with
           | Some d => read_integer s' (10 * acc + d)%N true
           | None => None
           end
  end.

Definition of_string (s : string) : option decimal :=
  let '(sg, body) :=
    match s with
    | String c r =>
        if Ascii.eqb c "-"%char then (true, r)
        else if Ascii.eqb c "+"%char then (false, r)
        else (false, s)
    | EmptyString => (false, s)
    end in
  match read_integer body 0%N false with
  | Some (c, e, true) => Some {| sign := sg; coefficient := c; exponent := e |}
  | _ => None
  end.

Fixpoint zeros (n : nat) : string :=
  match n with
  | O => EmptyString
  | S n' => String "0"%char (zeros n')
  end.

(** [Decimal.__str__] on finite numbers. *)
Definition to_string (d : decimal) : string :=
  let digits := NilZero.string_of_uint (N.to_uint (coefficient d)) in
  let len := Z.of_nat (String.length digits) in
  let leftdigits := exponent d + len in
  let dotplace :=
    if (exponent d <=? 0) && (-6 <? leftdigits) then leftdigits else 1 in
  let intpart :=
    if dotplace <=? 0 then "0"
    else if len <=? dotplace then digits ++ zeros (Z.to_nat (dotplace - len))
    else substring 0 (Z.to_nat dotplace) digits in
  let fracpart :=
    if dotplace <=? 0 then "." ++ zeros (Z.to_nat (- dotplace)) ++ digits
    else if len <=? dotplace then ""
    else "." ++ substring (Z.to_nat dotplace) (Z.to_nat (len - dotplace)) digits in
  let exp :=
    if leftdigits =? dotplace then ""
    else "E" ++ (if 0 <=? leftdigits - dotplace then "+" else "")
             ++ str_int (leftdigits - dotplace) in
  (if sign d then "-" else "") ++ intpart ++ fracpart ++ exp.

(** [Decimal.__float__] on finite numbers: the binary64 value nearest to
    [coefficient * 10 ^ exponent], ties to even, an infinity when that
    overflows, and a zero that keeps the sign.  The quotient or the product
    of the two integers is rounded once, by the division and the
    normalisation of the binary64 specification. *)
Definition to_float (d : decimal) : option float :=
  Some
    match coefficient d with
    | N0 => if sign d then (-0)%float else 0%float
    | Npos m =>
        if exponent d <=? 0 then
          SF2Prim (SFdiv prec emax
                     (S754_finite (sign d) m 0)
                     (S754_finite false (Z.to_pos (10 ^ (- exponent d))) 0))
        else
          SF2Prim (binary_normalize prec emax
                     (cond_Zopp (sign d) (Z.pos m * 10 ^ exponent d)) 0 false)
    end.

#[global] Instance decimal_ops : DecimalOps decimal := {
  Decimal := of_string;
  Decimal_str := to_string;
  Decimal_float := to_float
}.

(** The small-angle approximations [sin x = x], [cos x = 1] and
    [atan2 y x = y / x], with [x ** y] computed as [x * x]: a libm that
    only serves to run the formula. *)
Definition small_angle : Libm := {|
  math_sin := fun x => inr x;
  math_cos := fun _ => inr 1%float;
  math_atan2 := fun y x => inr (y / x)%float;
  float_pow := fun x _ => inr (x * x)%float
|}.

(** A libm whose every call fails. *)
Definition failing : Libm := {|
  math_sin := fun _ => inl EDOM;
  math_cos := fun _ => inl EDOM;
  math_atan2 := fun _ _ => inl EDOM;
  float_pow := fun _ _ => inl ERANGE
|}.

(** One element of [featureMember]. *)
Definition feature (pos text : string) : json :=
  JObject
    [("GeoObject",
      JObject
        [("metaDataProperty",
          JObject [("GeocoderMetaData", JObject [("text", JString text)])]);
         ("Point", JObject [("pos", JString pos)])])].

(** A 200 response holding the given features. *)
Definition found (features : list json) : Response :=
  {| status_code := 200;
     content := "{...}";
     json_body :=
       Some (JObject
               [("response",
                 JObject
                   [("GeoObjectCollection",
                     JObject [("featureMember", JArray features)])])]) |}.

Definition status (code : Z) (body : string) : Response :=
  {| status_code := code; content := body; json_body := None |}.

(** The [geocode] parameter of a request. *)
Fixpoint param (k : string) (ps : list (string * string)) : string :=
  match ps with
  | [] => ""
  | (k', v) :: rest => if String.eqb k' k then v else param k rest
  end.

(** A remote service that knows a few places. *)
Definition remote : Remote := fun _ req =>
  let q := param "geocode" (params req) in
  if String.eqb (param "apikey" (params req)) "bad-key" then
    Some (status 400 "Bad Request")
  else if String.eqb q "Moscow Ring Road" then
    Some (found [feature "37.632206 55.898947" "Russia, Moscow, MKAD"])
  else if String.eqb q "Red Square" then
    Some (found [feature "37.6173 55.7558" "Moscow, Russia"])
  else if String.eqb q "37.6173,55.7558" then
    Some (found [feature "37.6173 55.7558" "Moscow, Russia"])
  else if String.eqb q "MKAD, 1st kilometre" then
    Some (found [feature "37.842762 55.774558" "Russia, Moscow, MKAD, 1st kilometre"])
  else if String.eqb q "37.842762,55.774558" then
    Some (found [feature "37.842762 55.774558" "Russia, Moscow, MKAD, 1st kilometre"])
  else if String.eqb q "the ring road itself" then
    Some (found [feature "37.632206 55.898947" "Moscow Ring Road"])
  else if String.eqb q "37.632206,55.898947" then
    Some (found [feature "37.632206 55.898947" "Moscow Ring Road"])
  else if String.eqb q "one token" then
    Some (found [feature "37.6173" "Moscow, Russia"])
  else if String.eqb q "teapot" then
    Some (status 418 "short and stout")
  else if String.eqb q "unplugged" then
    None
  else
    Some (found []).


(** An instance built with key ["key"] and the reference point of
    [remote]. *)
Definition service : YandexGeocoder decimal :=
  {| api_key := Some "key";
     long_moscow_ring_road := Some {| sign := false; coefficient := 37632206; exponent := -6 |};
     lat_moscow_ring_road := Some {| sign := false; coefficient := 55898947; exponent := -6 |} |}.

Definition world : World decimal := {| self := service; sent := [] |}.

End Mock.

(* ================================================================== *)
(** ** What each method does with the reply to its request *)
(* ================================================================== *)

Section Replies.

Context {D : Type} {dec : DecimalOps D}.

(** What [request_geocoder] makes of the answer of [requests.get]. *)
Definition read_reply (reply : option Response) : outcome json :=
  match reply with
  | None => Raise (Builtin RequestException)
  | Some response =>
      if status_code response =? 200 then
        match json_body response with
        | Some body => getitem body "response"
        | None => Raise (Builtin JSONDecodeError)
        end
      else if status_code response =? 400 then Raise InvalidKey
      else Raise (UnexpectedResponse
                    ("status_code=" ++ str_int (status_code response)
                     ++ ", body=" ++ repr_bytes (content response)))
  end.

(** [response["GeoObjectCollection"]["featureMember"]]. *)
Definition feature_member (response : json) : outcome json :=
  match getitem response "GeoObjectCollection" with
  | Return collection => getitem collection "featureMember"
  | Raise e => Raise e
  end.

(** The first feature's position, read as [find_coordinates] does. *)
Definition read_position (data : json) : outcome (D * D) :=
  match getitem0 data with
  | Raise e => Raise e
  | Return feature =>
  match getitem feature "GeoObject" with
  | Raise e => Raise e
  | Return geo_object =>
  match getitem geo_object "Point" with
  | Raise e => Raise e
  | Return point =>
  match getitem point "pos" with
  | Raise e => Raise e
  | Return coordinates =>
  match split_space coordinates with
  | Raise e => Raise e
  | Return [longitude; latitude] =>
      match Decimal longitude with
      | None => Raise (Builtin InvalidOperation)
      | Some lon =>
          match Decimal latitude with
          | None => Raise (Builtin InvalidOperation)
          | Some lat => Return (lon, lat)
          end
      end
  | Return _ => Raise (Builtin ValueError)
  end end end end end.

(** The first feature's address text, read as [find_address] does. *)
Definition read_text (data : json) : outcome json :=
  match getitem0 data with
  | Raise e => Raise e
  | Return feature =>
  match getitem feature "GeoObject" with
  | Raise e => Raise e
  | Return geo_object =>
  match getitem geo_object "metaDataProperty" with
  | Raise e => Raise e
  | Return meta =>
  match getitem meta "GeocoderMetaData" with
  | Raise e => Raise e
  | Return geocoder_meta => getitem geocoder_meta "text"
  end end end end.

(** The great-circle distance as the specification words it: with
    [dlat] and [dlon] the differences of the latitudes and longitudes in
    radians, [a = sin^2(dlat/2) + cos(lat1) * cos(lat2) * sin^2(dlon/2)],
    [c = 2 * atan2(sqrt(a), sqrt(1 - a))] and the distance is [R * c].
    The value is [None] when one of the functions is undefined at its
    argument. *)
Definition haversine {libm : Libm} (R lat1 lon1 lat2 lon2 : float) : option float :=
  let dlat := (lat2 - lat1)%float in
  let dlon := (lon2 - lon1)%float in
  let sq x := match x with inr s => float_pow s 2%float | inl e => inl e end in
  match sq (math_sin (dlat / 2)%float), math_cos lat1, math_cos lat2,
        sq (math_sin (dlon / 2)%float) with
  | inr sin2_dlat, inr cos_lat1, inr cos_lat2, inr sin2_dlon =>
      let a := (sin2_dlat + cos_lat1 * cos_lat2 * sin2_dlon)%float in
      match math_sqrt a, math_sqrt (1 - a)%float with
      | Return root_a, Return root_1a =>
          match math_atan2 root_a root_1a with
          | inr angle => Some (R * (2 * angle))%float
          | inl _ => None
          end
      | _, _ => None
      end
  | _, _, _, _ => None
  end.








(** The [featureMember] of a 200 response:
    [response.json()["response"]["GeoObjectCollection"]["featureMember"]]. *)
Definition features_of (r : Response) : outcome json :=
  match json_body r with
  | None => Raise (Builtin JSONDecodeError)
  | Some body =>
      match getitem body "response" with
      | Raise e => Raise e
      | Return response => feature_member response
      end
  end.

(** [feature["GeoObject"]["Point"]["pos"]]. *)
Definition pos_of (feature : json) : outcome json :=
  match getitem feature "GeoObject" with
  | Raise e => Raise e
  | Return geo_object =>
      match getitem geo_object "Point" with
      | Raise e => Raise e
      | Return point => getitem point "pos"
      end
  end.

(** [feature["GeoObject"]["metaDataProperty"]["GeocoderMetaData"]["text"]]. *)
Definition text_of (feature : json) : outcome json :=
  match getitem feature "GeoObject" with
  | Raise e => Raise e
  | Return geo_object =>
      match getitem geo_object "metaDataProperty" with
      | Raise e => Raise e
      | Return meta =>
          match getitem meta "GeocoderMetaData" with
          | Raise e => Raise e
          | Return geocoder_meta => getitem geocoder_meta "text"
          end
      end
  end.

(** The world after one more request for [location] was sent. *)
Definition after_request (w : World D) (key location : string) : World D :=
  {| self := self w; sent := sent w ++ [geocode_request key location] |}.

(** What [find_coordinates] makes of the reply to its request. *)
Definition read_coordinates (address : string) (reply : option Response)
  : outcome (D * D) :=
  match read_reply reply with
  | Raise e => Raise e
  | Return response =>
      match feature_member response with
      | Raise e => Raise e
      | Return data =>
          if truthy data then read_position data
          else Raise (NothingFound ("Nothing found for " ++ dquote ++ address ++ dquote))
      end
  end.

(** What [find_address] makes of the reply to its request. *)
Definition read_address (longitude latitude : string) (reply : option Response)
  : outcome json :=
  match read_reply reply with
  | Raise e => Raise e
  | Return response =>
      match feature_member response with
      | Raise e => Raise e
      | Return data =>
          if truthy data then read_text data
          else Raise (NothingFound ("Nothing found for " ++ dquote ++ longitude
                                    ++ ", " ++ latitude ++ dquote))
      end
  end.

(** A binary64 value that is a zero or a finite number. *)
Definition sf_finite (x : spec_float) : Prop :=
  match x with
  | S754_zero _ | S754_finite _ _ _ => True
  | _ => False
  end.

(** [abs(c) <= 1.0]. *)
Definition within_unit (c : float) : bool := (abs c <=? 1)%float.

(** What the formula needs of the functions when the two points
    coincide: the special values [sin(+0) = +0] and [atan2(+0, 1) = +0] of
    C99 (Annex F), [0.0 ** 2 = 0.0] of the float power, and a cosine
    within [[-1, 1]] at every finite argument. *)
Record special_values (libm : Libm) : Prop := {
  sin_zero : math_sin 0%float = inr 0%float;
  pow_zero : float_pow 0%float 2%float = inr 0%float;
  cos_range : forall x, is_finite x = true ->
                exists c, math_cos x = inr c /\ within_unit c = true;
  atan2_zero : math_atan2 0%float 1%float = inr 0%float
}.

(** A computation that leaves the attributes of [self] as they were. *)
Definition keeps_self {A} (m : M D A) : Prop :=
  forall w, self (snd (m w)) = self w.

End Replies.

(* ================================================================== *)
(** ** Canned replies, used to run the methods off the schema *)
(* ================================================================== *)

Module Stub.

(** A remote service that gives the same reply to every request. *)
Definition always (r : Response) : Remote := fun _ _ => Some r.

(** A 200 response whose [featureMember] is the given value. *)
Definition with_features (data : json) : Response :=
  {| status_code := 200;
     content := "{...}";
     json_body :=
       Some (JObject
               [("response",
                 JObject
                   [("GeoObjectCollection",
                     JObject [("featureMember", data)])])]) |}.

(** A 200 response whose body is a page of HTML. *)
Definition html_page : Response :=
  {| status_code := 200; content := "<html></html>"; json_body := None |}.

(** A 200 response whose body is the JSON object [{"error": "quota"}]. *)
Definition no_response_member : Response :=
  {| status_code := 200;
     content := "{...}";
     json_body := Some (JObject [("error", JString "quota")]) |}.

(** A feature that holds a position and nothing else. *)
Definition only_pos (pos : string) : json :=
  JObject [("GeoObject", JObject [("Point", JObject [("pos", JString pos)])])].

(** A 503 response with the given raw body. *)
Definition unavailable (body : string) : Response :=
  {| status_code := 503; content := body; json_body := None |}.

End Stub.

(* ================================================================== *)
(** ** A reference point and its antipode *)
(* ================================================================== *)

Module Antipode.

(** The values that the C library, and so [math], returns at the
    arguments that the formula meets between the point (37.540822,
    55.665296) and its antipode (-142.459178, -55.665296): the sine of
    [dlat / 2] and of [dlon / 2], and the cosine of the two latitudes,
    which are opposite.  At these arguments [x ** 2] is [x * x].
    Elsewhere the functions are the small-angle approximations; none of
    them rejects an argument. *)
Definition libm : Libm := {|
  math_sin := fun x =>
    if PrimFloat.eqb x (-0x1.f16e0b4559414p-1)%float
    then inr (-0x1.a6c998ec740e2p-1)%float
    else if PrimFloat.eqb x (-0x1.921fb54442d18p+0)%float
    then inr (-1)%float
    else inr x;
  math_cos := fun x =>
    if PrimFloat.eqb (abs x) 0x1.f16e0b4559414p-1%float
    then inr 0x1.20c80e8c89ea0p-1%float
    else inr 1%float;
  math_atan2 := fun y x => inr (y / x)%float;
  float_pow := fun x _ => inr (x * x)%float
|}.

(** A remote service that puts the ring road at (37.540822, 55.665296)
    and resolves every other query to the antipode of that point, in the
    South Pacific. *)
Definition remote : Remote := fun _ req =>
  if String.eqb (Mock.param "geocode" (params req)) "Moscow Ring Road" then
    Some (Mock.found [Mock.feature "37.540822 55.665296" "Moscow Ring Road"])
  else
    Some (Mock.found [Mock.feature "-142.459178 -55.665296" "South Pacific Ocean"]).

(** The instance that [YandexGeocoder("key")] builds on [remote]. *)
Definition service : YandexGeocoder Mock.decimal :=
  {| api_key := Some "key";
     long_moscow_ring_road :=
       Some {| Mock.sign := false; Mock.coefficient := 37540822; Mock.exponent := -6 |};
     lat_moscow_ring_road :=
       Some {| Mock.sign := false; Mock.coefficient := 55665296; Mock.exponent := -6 |} |}.

Definition world : World Mock.decimal := {| self := service; sent := [] |}.

End Antipode.

(* ================================================================== *)
(** ** Reading strings back *)
(* ================================================================== *)

(** The number of occurrences of a character in a string. *)
Fixpoint count_char (c : ascii) (s : string) : nat :=
  match s with
  | EmptyString => O
  | String a s' => (if Ascii.eqb a c then 1 else 0)%nat + count_char c s'
  end.

(** The value of a lowercase hexadecimal digit. *)
Definition hexval (c : ascii) : N :=
  let n := N_of_ascii c in
  if (97 <=? n)%N then (n - 87)%N else (n - 48)%N.

(** Reading back the first byte of the body of a [bytes] literal
    delimited by [quote]: an escape sequence or a plain character;
    [None] at the closing quote and at a truncated escape. *)
Definition unescape_one (quote : ascii) (s : string) : option (ascii * string) :=
  match s with
  | EmptyString => None
  | String c r =>
      if Ascii.eqb c quote then None
      else if Ascii.eqb c backslash then
        match r with
        | EmptyString => None
        | String d r' =>
            if Ascii.eqb d "t" then Some (ascii_of_nat 9, r')
            else if Ascii.eqb d "n" then Some (ascii_of_nat 10, r')
            else if Ascii.eqb d "r" then Some (ascii_of_nat 13, r')
            else if Ascii.eqb d "x" then
              match r' with
              | String h (String l r'') =>
                  Some (ascii_of_N (16 * hexval h + hexval l), r'')
              | _ => None
              end
            else Some (d, r')
        end
      else Some (c, r)
  end.

(** Each declared exception of a lookup stands for one kind of reply:
    [InvalidKey] for a status 400, [UnexpectedResponse] for a status other
    than 200 and 400, with the message built from that response, and
    [NothingFound], with the message [not_found], for a 200 response whose
    [featureMember] is false as a truth value. *)
Definition errors_identify {A} (out : outcome A) (reply : option Response)
    (not_found : string) : Prop :=
  (out = Raise InvalidKey <->
   exists r, reply = Some r /\ status_code r = 400)
  /\ (forall msg,
        out = Raise (UnexpectedResponse msg) <->
        exists r,
          reply = Some r /\ status_code r <> 200 /\ status_code r <> 400
          /\ msg = "status_code=" ++ str_int (status_code r)
                   ++ ", body=" ++ repr_bytes (content r))
  /\ (forall msg,
        out = Raise (NothingFound msg) <->
        exists r data,
          reply = Some r /\ status_code r = 200
          /\ features_of r = Return data /\ truthy data = false
          /\ msg = not_found).

(** What a lookup does with a [featureMember] that is not a list: the
    values that are false as a truth value are reported with
    [NothingFound]; a non-empty [dict] has no key [0]; a non-empty [str],
    a number or [True] cannot be subscripted down to a feature. *)
Definition without_list {A} (out : outcome A) (data : json)
    (not_found : string) : Prop :=
  match data with
  | JArray _ => True
  | JNull | JBool false | JInt Z0 | JString EmptyString | JObject [] =>
      out = Raise (NothingFound not_found)
  | JFloat f =>
      out = if PrimFloat.eqb f 0%float then Raise (NothingFound not_found)
            else Raise (Builtin TypeError)
  | JObject (_ :: _) => out = Raise (Builtin KeyError)
  | JBool true | JInt _ | JString (String _ _) =>
      out = Raise (Builtin TypeError)
  end.

(** A computation that changes nothing: neither the attributes of [self]
    nor the log of requests. *)
Definition keeps_world {D A} (m : M D A) : Prop :=
  forall w, snd (m w) = w.

Create HintDb keeps.

(* ================================================================== *)
(** ** Each method sends one request and reads the reply *)
(* ================================================================== *)

Ltac run_monad :=
  unfold bind, lift, raise, ret, getattr, setattr, requests_get; simpl.

Section Runs.

Context {D : Type} {dec : DecimalOps D} {libm : Libm}.
Variable remote : Remote.

Lemma request_geocoder_run (w : World D) (key location : string) :
  api_key (self w) = Some key ->
  request_geocoder remote location w =
    (read_reply (remote (sent w) (geocode_request key location)),
     after_request w key location).
Proof.
  intros Hkey. unfold request_geocoder, after_request, geocode_request.
  run_monad. rewrite Hkey. simpl.
  destruct (remote _ _) as [r|]; simpl; [|reflexivity].
  destruct (status_code r =? 200).
  - destruct (json_body r); reflexivity.
  - destruct (status_code r =? 400); reflexivity.
Qed.

Lemma request_geocoder_no_key (w : World D) (location : string) :
  api_key (self w) = None ->
  request_geocoder remote location w = (Raise (Builtin AttributeError), w).
Proof.
  intros Hkey. unfold request_geocoder. run_monad. rewrite Hkey. reflexivity.
Qed.

Lemma find_coordinates_run (w : World D) (key address : string) :
  api_key (self w) = Some key ->
  find_coordinates remote address w =
    (read_coordinates address (remote (sent w) (geocode_request key address)),
     after_request w key address).
Proof.
  intros Hkey. unfold find_coordinates, bind at 1.
  rewrite (request_geocoder_run w key address Hkey).
  unfold read_coordinates, feature_member, read_position.
  destruct (read_reply _) as [response|e]; [|reflexivity].
  run_monad.
  destruct (getitem response _) as [collection|e]; [|reflexivity].
  destruct (getitem collection _) as [data|e]; [|reflexivity].
  destruct (truthy data); simpl; [|reflexivity].
  destruct (getitem0 data) as [feature|e]; [|reflexivity].
  destruct (getitem feature _) as [geo_object|e]; [|reflexivity].
  destruct (getitem geo_object _) as [point|e]; [|reflexivity].
  destruct (getitem point _) as [coordinates|e]; [|reflexivity].
  destruct (split_space coordinates) as [tokens|e]; [|reflexivity].
  destruct tokens as [|longitude [|latitude [|extra tokens]]]; try reflexivity.
  destruct (Decimal longitude); simpl; [|reflexivity].
  destruct (Decimal latitude); reflexivity.
Qed.

Lemma find_address_run {A B} {strA : PyStr A} {strB : PyStr B}
    (w : World D) (key : string) (longitude : A) (latitude : B) :
  api_key (self w) = Some key ->
  find_address remote longitude latitude w =
    (read_address (py_str longitude) (py_str latitude)
       (remote (sent w)
          (geocode_request key (py_str longitude ++ "," ++ py_str latitude))),
     after_request w key (py_str longitude ++ "," ++ py_str latitude)).
Proof.
  intros Hkey. unfold find_address, bind at 1.
  rewrite (request_geocoder_run w key _ Hkey).
  unfold read_address, feature_member, read_text.
  destruct (read_reply _) as [response|e]; [|reflexivity].
  run_monad.
  destruct (getitem response _) as [collection|e]; [|reflexivity].
  destruct (getitem collection _) as [data|e]; [|reflexivity].
  destruct (truthy data); simpl; [|reflexivity].
  destruct (getitem0 data) as [feature|e]; [|reflexivity].
  destruct (getitem feature _) as [geo_object|e]; [|reflexivity].
  destruct (getitem geo_object _) as [meta|e]; [|reflexivity].
  destruct (getitem meta _) as [geocoder_meta|e]; reflexivity.
Qed.

(** [calculate_distance] is the two lookups followed by the marker test. *)
Lemma calculate_distance_run (w : World D) (address : string) :
  calculate_distance remote (Some address) w =
    match find_coordinates remote address w with
    | (Raise e, w1) => (Raise e, w1)
    | (Return (longitude, latitude), w1) =>
        match find_address remote longitude latitude w1 with
        | (Raise e, w2) => (Raise e, w2)
        | (Return canonical, w2) =>
            match contains "MKAD" canonical with
            | Raise e => (Raise e, w2)
            | Return true => (Return (PyInt 0), w2)
            | Return false => distance_branch longitude latitude w2
            end
        end
    end.
Proof.
  unfold calculate_distance, bind at 1.
  destruct (find_coordinates remote address w) as [[[longitude latitude]|e] w1];
    [|reflexivity].
  unfold bind at 1.
  destruct (find_address remote longitude latitude w1) as [[canonical|e] w2];
    [|reflexivity].
  run_monad.
  destruct (contains "MKAD" canonical) as [[|]|e]; reflexivity.
Qed.

End Runs.

(* ================================================================== *)
(** ** Strings *)
(* ================================================================== *)

Section Strings.

Lemma app_string_assoc (s t u : string) : (s ++ t) ++ u = s ++ t ++ u.
Proof. induction s as [|a s IH]; simpl; [reflexivity|now rewrite IH]. Qed.

Lemma prefix_app (n s : string) : String.prefix n (n ++ s) = true.
Proof.
  induction n as [|a n IH]; simpl.
  - destruct s; reflexivity.
  - destruct (ascii_dec a a) as [_|Hne]; [exact IH|now elim Hne].
Qed.

Lemma str_in_prefix (n h : string) : String.prefix n h = true -> str_in n h = true.
Proof.
  intros Hp. destruct h as [|b h].
  - destruct n; [reflexivity|discriminate Hp].
  - change (str_in n (String b h)) with (String.prefix n (String b h) || str_in n h).
    now rewrite Hp.
Qed.

Lemma str_in_here (n s : string) : str_in n (n ++ s) = true.
Proof. apply str_in_prefix, prefix_app. Qed.

Lemma str_in_later (n p s : string) : str_in n s = true -> str_in n (p ++ s) = true.
Proof.
  intros Hs. induction p as [|a p IH]; simpl; [exact Hs|].
  rewrite IH. apply orb_true_r.
Qed.

(** A string occurs in whatever is built around it. *)
Lemma str_in_middle (n p s : string) : str_in n (p ++ n ++ s) = true.
Proof. apply str_in_later, str_in_here. Qed.

Lemma split_on_absent (c : ascii) (s : string) :
  has_char c s = false -> split_on c s = [s].
Proof.
  induction s as [|a s IH]; simpl; [reflexivity|].
  intros Habs. apply orb_false_iff in Habs as [Ha Hs].
  rewrite Ha, (IH Hs). reflexivity.
Qed.

Lemma split_on_first (c : ascii) (s t : string) :
  has_char c s = false -> split_on c (s ++ String c t) = s :: split_on c t.
Proof.
  induction s as [|a s IH]; simpl.
  - intros _. now rewrite Ascii.eqb_refl.
  - intros Habs. apply orb_false_iff in Habs as [Ha Hs].
    rewrite Ha, (IH Hs). reflexivity.
Qed.

(** Two pieces without a space, joined by one space, split back into the
    two pieces. *)
Lemma split_on_pair (s t : string) :
  has_char " " s = false -> has_char " " t = false ->
  split_on " " (s ++ " " ++ t) = [s; t].
Proof.
  intros Hs Ht. simpl. rewrite (split_on_first _ _ _ Hs), (split_on_absent _ _ Ht).
  reflexivity.
Qed.

(** The text of a status determines the status. *)
Lemma string_of_uint_no_comma (d : Decimal.uint) :
  has_char "," (NilEmpty.string_of_uint d) = false.
Proof. induction d; simpl; auto. Qed.

Lemma str_int_no_comma (z : Z) : has_char "," (str_int z) = false.
Proof.
  unfold str_int, NilZero.string_of_int, NilZero.string_of_uint.
  destruct (Z.to_int z) as [d|d]; destruct d; simpl;
    auto using string_of_uint_no_comma.
Qed.

Lemma str_int_inj (a b : Z) : str_int a = str_int b -> a = b.
Proof.
  unfold str_int. intros Heq. apply DecimalZ.to_int_inj.
  assert (Hnonnil : forall z, Z.to_int z <> Decimal.Pos Decimal.Nil
                              /\ Z.to_int z <> Decimal.Neg Decimal.Nil).
  { intros [|p|p]; cbn; split; try discriminate;
      intros [= Hp]; now apply DecimalPos.Unsigned.to_uint_nonnil in Hp. }
  pose proof (NilZero.isi (Z.to_int a) (proj1 (Hnonnil a)) (proj2 (Hnonnil a))) as Ha.
  pose proof (NilZero.isi (Z.to_int b) (proj1 (Hnonnil b)) (proj2 (Hnonnil b))) as Hb.
  rewrite Heq in Ha. congruence.
Qed.

Lemma app_sep_inj (c : ascii) (s1 s2 t1 t2 : string) :
  has_char c s1 = false -> has_char c s2 = false ->
  s1 ++ String c t1 = s2 ++ String c t2 -> s1 = s2.
Proof.
  revert s2. induction s1 as [|a s1 IH]; intros [|b s2]; simpl; intros H1 H2 Heq.
  - reflexivity.
  - injection Heq as -> _. now rewrite Ascii.eqb_refl in H2.
  - injection Heq as -> _. now rewrite Ascii.eqb_refl in H1.
  - injection Heq as -> Heq.
    apply orb_false_iff in H1 as [_ H1]. apply orb_false_iff in H2 as [_ H2].
    f_equal. now apply IH.
Qed.

Lemma status_message_inj (a b : Z) (x y : string) :
  "status_code=" ++ str_int a ++ ", body=" ++ x
  = "status_code=" ++ str_int b ++ ", body=" ++ y ->
  a = b.
Proof.
  simpl. intros [= Heq]. apply str_int_inj.
  apply (app_sep_inj "," _ _ _ _ (str_int_no_comma a) (str_int_no_comma b) Heq).
Qed.

End Strings.

(* ================================================================== *)
(** ** The remote-call contract *)
(* ================================================================== *)

Section Contract.

Context {D : Type} {dec : DecimalOps D} {libm : Libm}.
Variable remote : Remote.

(** An exception of the first lookup of [calculate_distance] is the
    exception of [calculate_distance]. *)
Lemma calculate_distance_first_raise (w w1 : World D) (address : string) (e : exn) :
  find_coordinates remote address w = (Raise e, w1) ->
  calculate_distance remote (Some address) w = (Raise e, w1).
Proof.
  intros Hfc. rewrite calculate_distance_run, Hfc. reflexivity.
Qed.

(** So is an exception of its second lookup. *)
Lemma calculate_distance_second_raise
    (w w1 w2 : World D) (address : string) (lon lat : D) (e : exn) :
  find_coordinates remote address w = (Return (lon, lat), w1) ->
  find_address remote lon lat w1 = (Raise e, w2) ->
  calculate_distance remote (Some address) w = (Raise e, w2).
Proof.
  intros Hfc Hfa. rewrite calculate_distance_run, Hfc, Hfa. reflexivity.
Qed.

(** C2: [request_geocoder] maps the status of the response to its one
    request exhaustively.  With status 200 it returns the [response] member
    of the decoded body; with status 400 it raises [InvalidKey], whatever
    the body; with any other status it raises [UnexpectedResponse] with the
    message [status_code=<status>, body=<repr of the raw body>], from which
    the status can be read back.  The three operations raise the same
    exception when the response to their request is not a 200,
    [calculate_distance] for either of its two requests. *)
Theorem request_geocoder_maps_status
    (w : World D) (key location : string) (r : Response) :
  api_key (self w) = Some key ->
  remote (sent w) (geocode_request key location) = Some r ->
  let failure :=
    if status_code r =? 400 then InvalidKey
    else UnexpectedResponse
           ("status_code=" ++ str_int (status_code r)
            ++ ", body=" ++ repr_bytes (content r)) in
  (status_code r = 200 ->
   forall items v,
     json_body r = Some (JObject items) ->
     dict_get items "response" = Some v ->
     fst (request_geocoder remote location w) = Return v)
  /\ (status_code r = 400 ->
      fst (request_geocoder remote location w) = Raise InvalidKey)
  /\ (status_code r <> 200 -> status_code r <> 400 ->
      fst (request_geocoder remote location w) =
        Raise (UnexpectedResponse
                 ("status_code=" ++ str_int (status_code r)
                  ++ ", body=" ++ repr_bytes (content r))))
  /\ (status_code r <> 200 ->
      fst (request_geocoder remote location w) = Raise failure
      /\ fst (find_coordinates remote location w) = Raise failure
      /\ fst (calculate_distance remote (Some location) w) = Raise failure
      /\ (forall A B (strA : PyStr A) (strB : PyStr B) (lon : A) (lat : B),
            py_str lon ++ "," ++ py_str lat = location ->
            fst (find_address remote lon lat w) = Raise failure)
      /\ (forall w0 address (lon lat : D),
            find_coordinates remote address w0 = (Return (lon, lat), w) ->
            py_str lon ++ "," ++ py_str lat = location ->
            fst (calculate_distance remote (Some address) w0) = Raise failure))
  /\ (forall r' : Response,
        "status_code=" ++ str_int (status_code r')
        ++ ", body=" ++ repr_bytes (content r')
        = "status_code=" ++ str_int (status_code r)
          ++ ", body=" ++ repr_bytes (content r) ->
        status_code r' = status_code r).
Proof.
  intros Hkey Hr failure.
  assert (Hrun := request_geocoder_run remote w key location Hkey).
  rewrite Hr in Hrun.
  assert (Hfail : status_code r <> 200 -> read_reply (Some r) = Raise failure).
  { intros Hne. unfold read_reply, failure.
    destruct (Z.eqb_spec (status_code r) 200) as [E|_]; [contradiction|].
    destruct (status_code r =? 400); reflexivity. }
  repeat split.
  - intros H200 items v Hbody Hv. rewrite Hrun. cbn [fst read_reply].
    rewrite H200, Hbody. cbn. rewrite Hv. reflexivity.
  - intros H400. rewrite Hrun. cbn [fst read_reply]. rewrite H400. reflexivity.
  - intros Hne200 Hne400. rewrite Hrun. cbn [fst].
    rewrite (Hfail Hne200). unfold failure.
    destruct (Z.eqb_spec (status_code r) 400) as [E|_]; [contradiction|reflexivity].
  - rewrite Hrun. cbn [fst]. now apply Hfail.
  - rewrite (find_coordinates_run remote w key location Hkey), Hr. cbn [fst].
    unfold read_coordinates. now rewrite Hfail.
  - pose proof (find_coordinates_run remote w key location Hkey) as Hfc.
    rewrite Hr in Hfc. unfold read_coordinates in Hfc. rewrite Hfail in Hfc by assumption.
    rewrite (calculate_distance_first_raise _ _ _ _ Hfc). reflexivity.
  - intros A B strA strB lon lat Hloc.
    rewrite (find_address_run remote w key lon lat Hkey), Hloc, Hr. cbn [fst].
    unfold read_address. now rewrite Hfail.
  - intros w0 address lon lat Hfc Hloc.
    pose proof (find_address_run remote w key lon lat Hkey) as Hfa.
    change (@py_str D PyStr_Decimal) with (@py_str D (@PyStr_Decimal D dec)) in Hfa.
    rewrite Hloc, Hr in Hfa. unfold read_address in Hfa.
    rewrite Hfail in Hfa by assumption.
    rewrite (calculate_distance_second_raise _ _ _ _ _ _ _ Hfc Hfa). reflexivity.
  - intros r'. apply status_message_inj.
Qed.

End Contract.

(** On the mocked service, a 418 answer to [find_coordinates] surfaces
    as [UnexpectedResponse] with the status and the body. *)
Lemma request_geocoder_maps_status_witness :
  fst (find_coordinates Mock.remote "teapot" Mock.world)
  = Raise (UnexpectedResponse "status_code=418, body=b'short and stout'").
Proof.
  destruct (request_geocoder_maps_status (libm := Mock.small_angle) Mock.remote
              Mock.world "key" "teapot" (Mock.status 418 "short and stout")
              eq_refl eq_refl) as (_ & _ & _ & Hoperations & _).
  destruct Hoperations as (_ & Hfind & _); [discriminate|exact Hfind].
Defined.

(* ================================================================== *)
(** ** The two lookups *)
(* ================================================================== *)


Section Lookups.

Context {D : Type} {dec : DecimalOps D}.
Variable remote : Remote.

Lemma read_reply_features (r : Response) :
  status_code r = 200 ->
  match read_reply (Some r) with
  | Raise e => Raise e
  | Return response => feature_member response
  end = features_of r.
Proof.
  intros H200. unfold read_reply, features_of. rewrite H200. simpl.
  destruct (json_body r); reflexivity.
Qed.

Lemma read_coordinates_features (address : string) (r : Response) (data : json) :
  status_code r = 200 -> features_of r = Return data ->
  read_coordinates address (Some r) =
    if truthy data then read_position data
    else Raise (NothingFound ("Nothing found for " ++ dquote ++ address ++ dquote)).
Proof.
  intros H200 Hdata. pose proof (read_reply_features r H200) as Hr.
  unfold read_coordinates. rewrite Hdata in Hr.
  destruct (read_reply (Some r)) as [response|e]; [|discriminate].
  now rewrite Hr.
Qed.

Lemma read_address_features (lon lat : string) (r : Response) (data : json) :
  status_code r = 200 -> features_of r = Return data ->
  read_address lon lat (Some r) =
    if truthy data then read_text data
    else Raise (NothingFound ("Nothing found for " ++ dquote ++ lon ++ ", " ++ lat ++ dquote)).
Proof.
  intros H200 Hdata. pose proof (read_reply_features r H200) as Hr.
  unfold read_address. rewrite Hdata in Hr.
  destruct (read_reply (Some r)) as [response|e]; [|discriminate].
  now rewrite Hr.
Qed.

(** C6: when the 200 response to the request of [find_coordinates] holds
    at least one feature, and the [pos] of the first one is two numerals
    joined by one space, [find_coordinates] returns the pair of the
    [Decimal] of the first token, the longitude, and the [Decimal] of the
    second, the latitude; the other features are not looked at. *)
Theorem find_coordinates_first_position
    (w : World D) (key address : string) (r : Response)
    (first : json) (others : list json) (token1 token2 : string) (lon lat : D) :
  api_key (self w) = Some key ->
  remote (sent w) (geocode_request key address) = Some r ->
  status_code r = 200 ->
  features_of r = Return (JArray (first :: others)) ->
  pos_of first = Return (JString (token1 ++ " " ++ token2)) ->
  has_char " " token1 = false ->
  has_char " " token2 = false ->
  Decimal token1 = Some lon ->
  Decimal token2 = Some lat ->
  fst (find_coordinates remote address w) = Return (lon, lat).
Proof.
  intros Hkey Hr H200 Hfeatures Hpos Hs1 Hs2 Hlon Hlat.
  rewrite (find_coordinates_run remote w key address Hkey), Hr. cbn [fst].
  rewrite (read_coordinates_features address r _ H200 Hfeatures).
  cbn [truthy]. unfold read_position. cbn [getitem0].
  unfold pos_of in Hpos.
  destruct (getitem first "GeoObject") as [geo_object|e]; [|discriminate].
  destruct (getitem geo_object "Point") as [point|e]; [|discriminate].
  rewrite Hpos. cbn [split_space].
  rewrite (split_on_pair token1 token2 Hs1 Hs2), Hlon, Hlat. reflexivity.
Qed.

(** C7: [find_address] sends one request, whose [geocode] parameter is
    [str(longitude) + "," + str(latitude)], and when the 200 response holds
    at least one feature it returns the [text] of the first one as it
    is. *)
Theorem find_address_query_and_text
    {A B} {strA : PyStr A} {strB : PyStr B}
    (w : World D) (key : string) (longitude : A) (latitude : B) :
  api_key (self w) = Some key ->
  let query :=
    {| url := "https://geocode-maps.yandex.ru/1.x/";
       params := [("format", "json"); ("apikey", key);
                  ("geocode", py_str longitude ++ "," ++ py_str latitude);
                  ("lang", "en_RU")] |} in
  sent (snd (find_address remote longitude latitude w)) = (sent w ++ [query])%list
  /\ forall r first others text,
       remote (sent w) query = Some r ->
       status_code r = 200 ->
       features_of r = Return (JArray (first :: others)) ->
       text_of first = Return text ->
       fst (find_address remote longitude latitude w) = Return text.
Proof.
  intros Hkey query.
  rewrite (find_address_run remote w key longitude latitude Hkey).
  split; [reflexivity|].
  intros r first others text Hr H200 Hfeatures Htext.
  fold (geocode_request key (py_str longitude ++ "," ++ py_str latitude)) in query.
  subst query. rewrite Hr. cbn [fst].
  rewrite (read_address_features _ _ r _ H200 Hfeatures).
  cbn [truthy]. unfold read_text. cbn [getitem0]. exact Htext.
Qed.

End Lookups.

(** On the mocked service of the specification's example, the query
    ["Red Square"] answered with [pos = "37.6173 55.7558"] gives
    [(Decimal("37.6173"), Decimal("55.7558"))]. *)
Lemma find_coordinates_first_position_witness :
  exists lon lat,
    Decimal "37.6173" = Some lon /\ Decimal "55.7558" = Some lat
    /\ fst (find_coordinates Mock.remote "Red Square" Mock.world) = Return (lon, lat).
Proof.
  eexists; eexists. split; [reflexivity|]. split; [reflexivity|].
  apply (find_coordinates_first_position Mock.remote Mock.world "key" "Red Square"
           (Mock.found [Mock.feature "37.6173 55.7558" "Moscow, Russia"])
           (Mock.feature "37.6173 55.7558" "Moscow, Russia") []
           "37.6173" "55.7558"); reflexivity.
Defined.

(** On the mocked service, the coordinate of Red Square is sent as
    ["37.6173,55.7558"] and answered with ["Moscow, Russia"]. *)
Lemma find_address_query_and_text_witness :
  let lon := {| Mock.sign := false; Mock.coefficient := 376173; Mock.exponent := -4 |} in
  let lat := {| Mock.sign := false; Mock.coefficient := 557558; Mock.exponent := -4 |} in
  sent (snd (find_address Mock.remote lon lat Mock.world))
  = [geocode_request "key" "37.6173,55.7558"]
  /\ fst (find_address Mock.remote lon lat Mock.world) = Return (JString "Moscow, Russia").
Proof.
  intros lon lat.
  destruct (find_address_query_and_text Mock.remote Mock.world "key" lon lat eq_refl)
    as [Hsent Htext].
  split; [exact Hsent|].
  apply (Htext (Mock.found [Mock.feature "37.6173 55.7558" "Moscow, Russia"])
               (Mock.feature "37.6173 55.7558" "Moscow, Russia") []); reflexivity.
Defined.

Section NotFound.

Context {D : Type} {dec : DecimalOps D}.
Variable remote : Remote.

(** C3, as the code has it: when the 200 response to the request holds
    no feature, [find_coordinates] raises [NothingFound] with the message
    [Nothing found for "<address>"], which holds the address that was
    queried, and [find_address] raises [NothingFound] with the message
    [Nothing found for "<longitude>, <latitude>"], which holds the two
    coordinates as [str] prints them, separated by a comma and a space. *)
Theorem nothing_found_messages (w : World D) (key : string) :
  api_key (self w) = Some key ->
  (forall address r,
     remote (sent w) (geocode_request key address) = Some r ->
     status_code r = 200 ->
     features_of r = Return (JArray []) ->
     let msg := "Nothing found for " ++ dquote ++ address ++ dquote in
     fst (find_coordinates remote address w) = Raise (NothingFound msg)
     /\ str_in address msg = true)
  /\ (forall A B (strA : PyStr A) (strB : PyStr B) (longitude : A) (latitude : B) r,
        remote (sent w)
          (geocode_request key (py_str longitude ++ "," ++ py_str latitude)) = Some r ->
        status_code r = 200 ->
        features_of r = Return (JArray []) ->
        let msg := "Nothing found for " ++ dquote ++ py_str longitude
                   ++ ", " ++ py_str latitude ++ dquote in
        fst (find_address remote longitude latitude w) = Raise (NothingFound msg)
        /\ str_in (py_str longitude) msg = true
        /\ str_in (py_str latitude) msg = true).
Proof.
  intros Hkey. split.
  - intros address r Hr H200 Hnone msg. split.
    + rewrite (find_coordinates_run remote w key address Hkey), Hr. cbn [fst].
      now rewrite (read_coordinates_features address r _ H200 Hnone).
    + apply (str_in_middle address ("Nothing found for " ++ dquote) dquote).
  - intros A B strA strB longitude latitude r Hr H200 Hnone msg. repeat split.
    + rewrite (find_address_run remote w key longitude latitude Hkey), Hr. cbn [fst].
      now rewrite (read_address_features _ _ r _ H200 Hnone).
    + apply (str_in_middle (py_str longitude) ("Nothing found for " ++ dquote)
               (", " ++ py_str latitude ++ dquote)).
    + unfold msg.
      replace ("Nothing found for " ++ dquote ++ py_str longitude
               ++ ", " ++ py_str latitude ++ dquote)
        with (("Nothing found for " ++ dquote ++ py_str longitude ++ ", ")
              ++ py_str latitude ++ dquote).
      * apply str_in_middle.
      * now rewrite !app_string_assoc.
Qed.

End NotFound.

(** On the mocked service, a place it does not know is reported with
    its name. *)
Lemma nothing_found_messages_witness :
  fst (find_coordinates Mock.remote "nowhere" Mock.world)
  = Raise (NothingFound ("Nothing found for " ++ dquote ++ "nowhere" ++ dquote)).
Proof.
  apply (proj1 (nothing_found_messages Mock.remote Mock.world "key" eq_refl)
           "nowhere" (Mock.found [])); reflexivity.
Defined.

(** The message of [find_address] is not built from the query it sent:
    for the coordinate (10.5, 20.25), which the mocked service does not
    know, the query is ["10.5,20.25"] and the message holds
    ["10.5, 20.25"], in which the query does not occur. *)
Lemma find_address_message_differs_from_query :
  let lon := {| Mock.sign := false; Mock.coefficient := 105; Mock.exponent := -1 |} in
  let lat := {| Mock.sign := false; Mock.coefficient := 2025; Mock.exponent := -2 |} in
  sent (snd (find_address Mock.remote lon lat Mock.world))
  = [geocode_request "key" "10.5,20.25"]
  /\ fst (find_address Mock.remote lon lat Mock.world)
     = Raise (NothingFound ("Nothing found for " ++ dquote ++ "10.5, 20.25" ++ dquote))
  /\ str_in "10.5,20.25" ("Nothing found for " ++ dquote ++ "10.5, 20.25" ++ dquote)
     = false.
Proof. repeat split; reflexivity. Qed.

(* ================================================================== *)
(** ** Construction and the attributes of the instance *)
(* ================================================================== *)

Section Instance.

Context {D : Type} {dec : DecimalOps D} {libm : Libm}.
Variable remote : Remote.

Lemma keeps_self_ret {A} (a : A) : keeps_self (@ret D A a).
Proof. intros w. reflexivity. Qed.

Lemma keeps_self_raise {A} (e : exn) : keeps_self (@raise D A e).
Proof. intros w. reflexivity. Qed.

Lemma keeps_self_lift {A} (o : outcome A) : keeps_self (@lift D A o).
Proof. intros w. reflexivity. Qed.

Lemma keeps_self_getattr {A} (field : YandexGeocoder D -> option A) :
  keeps_self (getattr field).
Proof. intros w. reflexivity. Qed.

Lemma keeps_self_requests_get (u : string) (ps : list (string * string)) :
  keeps_self (requests_get (D := D) remote u ps).
Proof. intros w. reflexivity. Qed.

Lemma keeps_self_bind {A B} (m : M D A) (k : A -> M D B) :
  keeps_self m -> (forall a, keeps_self (k a)) -> keeps_self (bind m k).
Proof.
  intros Hm Hk w. unfold bind. specialize (Hm w).
  destruct (m w) as [[a|e] w']; simpl in *.
  - now rewrite Hk.
  - exact Hm.
Qed.

Hint Resolve keeps_self_ret keeps_self_raise keeps_self_lift
  keeps_self_getattr keeps_self_requests_get : keeps.

Ltac keeps :=
  repeat first
    [ apply keeps_self_bind; [|intros ?]
    | solve [auto with keeps]
    | match goal with
      | |- keeps_self (if ?b then _ else _) => destruct b
      | |- keeps_self (match ?x with _ => _ end) => destruct x
      end ].

Lemma keeps_self_request_geocoder (location : string) :
  keeps_self (request_geocoder (D := D) remote location).
Proof. unfold request_geocoder. keeps. Qed.

Lemma keeps_self_find_coordinates (address : string) :
  keeps_self (find_coordinates remote address).
Proof.
  unfold find_coordinates.
  apply keeps_self_bind; [apply keeps_self_request_geocoder|intros ?]. keeps.
Qed.

Lemma keeps_self_find_address {A B} {strA : PyStr A} {strB : PyStr B}
    (longitude : A) (latitude : B) :
  keeps_self (find_address (D := D) remote longitude latitude).
Proof.
  unfold find_address.
  apply keeps_self_bind; [apply keeps_self_request_geocoder|intros ?]. keeps.
Qed.

Lemma keeps_self_distance_branch (longitude latitude : D) :
  keeps_self (distance_branch longitude latitude).
Proof. unfold distance_branch. keeps. Qed.

Lemma keeps_self_calculate_distance (address : option string) :
  keeps_self (calculate_distance remote address).
Proof.
  unfold calculate_distance. destruct address as [addr|]; [|apply keeps_self_raise].
  apply keeps_self_bind; [apply keeps_self_find_coordinates|intros [longitude latitude]].
  apply keeps_self_bind; [apply keeps_self_find_address|intros canonical].
  apply keeps_self_bind; [apply keeps_self_lift|intros [|]].
  - apply keeps_self_ret.
  - apply keeps_self_distance_branch.
Qed.

(** [YandexGeocoder(key)] sends the request for the reference address
    and keeps what [find_coordinates] reads in the reply. *)
Lemma new_run (key : string) (log : list Request) :
  new remote key log =
    (match read_coordinates "Moscow Ring Road"
             (remote log (geocode_request key "Moscow Ring Road")) with
     | Return (lon, lat) =>
         Return {| api_key := Some key;
                   long_moscow_ring_road := Some lon;
                   lat_moscow_ring_road := Some lat |}
     | Raise e => Raise e
     end,
     (log ++ [geocode_request key "Moscow Ring Road"])%list).
Proof.
  unfold new, __init__, bind at 1, setattr at 1. cbn [self sent api_key].
  unfold bind at 1.
  rewrite (find_coordinates_run remote
             {| self := {| api_key := Some key;
                           long_moscow_ring_road := long_moscow_ring_road blank;
                           lat_moscow_ring_road := lat_moscow_ring_road blank |};
                sent := log |} key "Moscow Ring Road" eq_refl).
  cbn [sent].
  destruct (read_coordinates _ _) as [[lon lat]|e]; reflexivity.
Qed.

(** C8: constructing the service sends the lookup of the hardcoded
    reference address ["Moscow Ring Road"] at once.  When the response
    has status 400 the construction raises [InvalidKey], and when it is a
    200 without features it raises [NothingFound]; no instance is
    returned in either case. *)
Theorem construction_failures (key : string) (log : list Request) (r : Response) :
  remote log (geocode_request key "Moscow Ring Road") = Some r ->
  snd (new remote key log) = (log ++ [geocode_request key "Moscow Ring Road"])%list
  /\ (status_code r = 400 -> fst (new remote key log) = Raise InvalidKey)
  /\ (status_code r = 200 -> features_of r = Return (JArray []) ->
      fst (new remote key log)
      = Raise (NothingFound
                 ("Nothing found for " ++ dquote ++ "Moscow Ring Road" ++ dquote))).
Proof.
  intros Hr. rewrite new_run, Hr. cbn [fst snd]. repeat split.
  - intros H400. unfold read_coordinates, read_reply. rewrite H400. reflexivity.
  - intros H200 Hnone.
    now rewrite (read_coordinates_features _ r _ H200 Hnone).
Qed.

(** C9: the construction sends exactly one request, the lookup of the
    reference address, and the instance it returns holds the key and the
    coordinate read in that reply; afterwards [find_coordinates],
    [find_address] and [calculate_distance] leave the three attributes
    [api_key], [long_moscow_ring_road] and [lat_moscow_ring_road] as they
    found them, whatever the remote service answers. *)
Theorem reference_point_is_fixed :
  (forall key log,
     snd (new remote key log) = (log ++ [geocode_request key "Moscow Ring Road"])%list)
  /\ (forall key log service,
        fst (new remote key log) = Return service ->
        exists lon lat,
          read_coordinates "Moscow Ring Road"
            (remote log (geocode_request key "Moscow Ring Road")) = Return (lon, lat)
          /\ service = {| api_key := Some key;
                          long_moscow_ring_road := Some lon;
                          lat_moscow_ring_road := Some lat |})
  /\ (forall (w : World D) address,
        self (snd (find_coordinates remote address w)) = self w)
  /\ (forall (w : World D) (longitude latitude : D),
        self (snd (find_address remote longitude latitude w)) = self w)
  /\ (forall (w : World D) (longitude latitude : string),
        self (snd (find_address remote longitude latitude w)) = self w)
  /\ (forall (w : World D) address,
        self (snd (calculate_distance remote address w)) = self w).
Proof.
  repeat split.
  - intros key log. now rewrite new_run.
  - intros key log service. rewrite new_run. cbn [fst].
    destruct (read_coordinates _ _) as [[lon lat]|e]; [|discriminate].
    intros [= <-]. now exists lon, lat.
  - intros w address. apply keeps_self_find_coordinates.
  - intros w longitude latitude. apply keeps_self_find_address.
  - intros w longitude latitude. apply keeps_self_find_address.
  - intros w address. apply keeps_self_calculate_distance.
Qed.

End Instance.

(** On the mocked service, the key ["bad-key"] is rejected and no
    instance is built. *)
Lemma construction_failures_witness :
  fst (new Mock.remote "bad-key" []) = Raise InvalidKey
  /\ snd (new Mock.remote "bad-key" []) = [geocode_request "bad-key" "Moscow Ring Road"].
Proof.
  destruct (construction_failures Mock.remote "bad-key" []
              (Mock.status 400 "Bad Request") eq_refl) as (Hsent & H400 & _).
  split; [apply H400; reflexivity|exact Hsent].
Defined.

(** On the mocked service, the instance built with ["key"] holds the
    coordinate of the one reply, and a later [calculate_distance] leaves
    it as it is. *)
Lemma reference_point_is_fixed_witness :
  fst (new Mock.remote "key" []) = Return Mock.service
  /\ self (snd (calculate_distance (libm := Mock.small_angle) Mock.remote
                  (Some "Red Square") Mock.world)) = Mock.service.
Proof.
  destruct (reference_point_is_fixed (libm := Mock.small_angle) Mock.remote)
    as (_ & Hnew & _ & _ & _ & Hcd).
  split.
  - destruct (Hnew "key" [] Mock.service eq_refl) as (lon & lat & _ & Hservice).
    reflexivity.
  - exact (Hcd Mock.world (Some "Red Square")).
Defined.

(* ================================================================== *)
(** ** The distance *)
(* ================================================================== *)

Section Distance.

Context {D : Type} {dec : DecimalOps D}.
Variable remote : Remote.

(** C1: whenever the two lookups of [calculate_distance] succeed and the
    canonical text that [find_address] returns holds ["MKAD"], the result
    is the integer [0], whatever coordinate was resolved and whatever the
    functions of the formula would do: the formula is not evaluated. *)
Theorem marker_gives_zero
    (libm : Libm) (w w1 w2 : World D) (address text : string) (lon lat : D) :
  find_coordinates remote address w = (Return (lon, lat), w1) ->
  find_address remote lon lat w1 = (Return (JString text), w2) ->
  str_in "MKAD" text = true ->
  calculate_distance remote (Some address) w = (Return (PyInt 0), w2).
Proof.
  intros Hfc Hfa Hmark.
  rewrite calculate_distance_run, Hfc, Hfa. cbn [contains]. now rewrite Hmark.
Qed.

(** The formula of [calculate_distance], once the four angles are known,
    is the haversine distance of the specification. *)
Lemma distance_branch_haversine
    {libm : Libm} (w : World D) (lon lat ref_lon ref_lat : D)
    (lat1 lon1 lat2 lon2 : float) :
  long_moscow_ring_road (self w) = Some ref_lon ->
  lat_moscow_ring_road (self w) = Some ref_lat ->
  radians ref_lat = Return lat1 ->
  radians ref_lon = Return lon1 ->
  radians lat = Return lat2 ->
  radians lon = Return lon2 ->
  match haversine 6373 lat1 lon1 lat2 lon2 with
  | Some d => distance_branch lon lat w = (Return (PyFloat d), w)
  | None => exists e, distance_branch lon lat w = (Raise (Builtin e), w)
  end.
Proof.
  intros Hlon Hlat Hr1 Hr2 Hr3 Hr4.
  unfold distance_branch, haversine. run_monad.
  rewrite Hlat. cbn [of_option]. rewrite Hr1, Hlon. cbn [of_option].
  rewrite Hr2, Hr3, Hr4.
  assert (Hmath : forall A (e : math_error),
             exists b, @raise_math A e = Raise (Builtin b)).
  { intros A [|]; eexists; reflexivity. }
  destruct (math_sin ((lat2 - lat1) / 2)) as [e|s1]; cbn [of_math].
  { destruct (Hmath float e) as [b ->]. now exists b. }
  destruct (float_pow s1 2) as [e|s1sq]; cbn [of_math].
  { destruct (Hmath float e) as [b ->]. now exists b. }
  destruct (math_cos lat1) as [e|c1]; cbn [of_math].
  { destruct (Hmath float e) as [b ->]. now exists b. }
  destruct (math_cos lat2) as [e|c2]; cbn [of_math].
  { destruct (Hmath float e) as [b ->]. now exists b. }
  destruct (math_sin ((lon2 - lon1) / 2)) as [e|s2]; cbn [of_math].
  { destruct (Hmath float e) as [b ->]. now exists b. }
  destruct (float_pow s2 2) as [e|s2sq]; cbn [of_math].
  { destruct (Hmath float e) as [b ->]. now exists b. }
  unfold math_sqrt.
  destruct (PrimFloat.ltb (s1sq + c1 * c2 * s2sq) 0).
  { destruct (PrimFloat.ltb (1 - (s1sq + c1 * c2 * s2sq)) 0); now exists ValueError. }
  destruct (PrimFloat.ltb (1 - (s1sq + c1 * c2 * s2sq)) 0).
  { now exists ValueError. }
  destruct (math_atan2 _ _) as [e|t]; cbn [of_math].
  { destruct (Hmath float e) as [b ->]. now exists b. }
  reflexivity.
Qed.


End Distance.

(** On the mocked service the canonical text of ["MKAD, 1st kilometre"]
    holds the marker: the distance is [0] even with a libm whose every
    call fails. *)
Lemma marker_gives_zero_witness :
  fst (calculate_distance (libm := Mock.failing) Mock.remote
         (Some "MKAD, 1st kilometre") Mock.world) = Return (PyInt 0).
Proof.
  refine (f_equal fst
    (marker_gives_zero Mock.remote Mock.failing Mock.world _ _
       "MKAD, 1st kilometre" "Russia, Moscow, MKAD, 1st kilometre"
       {| Mock.sign := false; Mock.coefficient := 37842762; Mock.exponent := -6 |}
       {| Mock.sign := false; Mock.coefficient := 55774558; Mock.exponent := -6 |}
       eq_refl eq_refl eq_refl)).
Defined.


(** C5: a failing input.  The ring road is at (37.540822, 55.665296)
    and the address resolves to the antipode of that point, (-142.459178,
    -55.665296), under a canonical text without the marker.  Both lookups
    succeed and the formula is evaluated: [dlon / 2] is [-pi / 2] and the
    two latitudes are opposite, so [a] is [sin^2 + cos^2] of one angle,
    which rounds to [1 + 2^-52]; [1 - a] is negative, [math.sqrt] rejects
    it, and [calculate_distance] raises [ValueError] where the distance,
    half the circumference, was to be returned. *)
Lemma antipode_raises_value_error :
  let address := "55.665296 S, 142.459178 W" in
  let lon := {| Mock.sign := true; Mock.coefficient := 142459178; Mock.exponent := -6 |} in
  let lat := {| Mock.sign := true; Mock.coefficient := 55665296; Mock.exponent := -6 |} in
  fst (new Antipode.remote "key" []) = Return Antipode.service
  /\ fst (find_coordinates Antipode.remote address Antipode.world) = Return (lon, lat)
  /\ fst (find_address Antipode.remote lon lat
            (snd (find_coordinates Antipode.remote address Antipode.world)))
     = Return (JString "South Pacific Ocean")
  /\ str_in "MKAD" "South Pacific Ocean" = false
  /\ radians lat = Return (-0x1.f16e0b4559414p-1)%float
  /\ radians lon = Return (-0x1.3e41c177dbe2ap+1)%float
  /\ (0x1.5d1ea17686a34p-1 + 0x1.20c80e8c89ea0p-1 * 0x1.20c80e8c89ea0p-1 * 1
      = 0x1.0000000000001p+0)%float
  /\ math_sqrt (1 - 0x1.0000000000001p+0)%float = Raise (Builtin ValueError)
  /\ haversine (libm := Antipode.libm) 6373
       0x1.f16e0b4559414p-1 0x1.4f77cf319bbb8p-1
       (-0x1.f16e0b4559414p-1) (-0x1.3e41c177dbe2ap+1) = None
  /\ fst (calculate_distance (libm := Antipode.libm) Antipode.remote
            (Some address) Antipode.world)
     = Raise (Builtin ValueError)
  /\ sent (snd (calculate_distance (libm := Antipode.libm) Antipode.remote
                  (Some address) Antipode.world))
     = [geocode_request "key" address;
        geocode_request "key" "-142.459178,-55.665296"].
Proof. repeat split; reflexivity. Qed.

(* ================================================================== *)
(** ** Failures *)
(* ================================================================== *)




Section Failures.

Context {D : Type} {dec : DecimalOps D}.
Variable remote : Remote.








End Failures.



(* ================================================================== *)
(** ** Binary64 arithmetic at the reference point *)
(* ================================================================== *)

Section Binary64.

(** The number of binary digits of [m] brackets [m] between two powers
    of two. *)
Lemma digits2_pos_bounds (m : positive) :
  2 ^ (Zpos (digits2_pos m) - 1) <= Zpos m < 2 ^ Zpos (digits2_pos m).
Proof.
  induction m as [m IH|m IH|]; cbn [digits2_pos].
  - rewrite Pos2Z.inj_succ.
    replace (Z.succ (Zpos (digits2_pos m)) - 1) with (Z.succ (Zpos (digits2_pos m) - 1)) by lia.
    rewrite !Z.pow_succ_r by lia. lia.
  - rewrite Pos2Z.inj_succ.
    replace (Z.succ (Zpos (digits2_pos m)) - 1) with (Z.succ (Zpos (digits2_pos m) - 1)) by lia.
    rewrite !Z.pow_succ_r by lia. lia.
  - cbn. lia.
Qed.

Lemma Zdigits2_le (m k : Z) : 0 <= m < 2 ^ k -> 0 <= k -> Zdigits2 m <= k.
Proof.
  intros [Hm Hlt] Hk. destruct m as [|p|p]; cbn [Zdigits2]; [lia| |lia].
  pose proof (digits2_pos_bounds p) as [Hlo _].
  assert (2 ^ (Zpos (digits2_pos p) - 1) < 2 ^ k) by lia.
  apply Z.pow_lt_mono_r_iff in H; lia.
Qed.

(** Shifting a mantissa right does not make it larger or negative. *)
Lemma shr_1_bounds (mrs : shr_record) :
  0 <= shr_m mrs -> 0 <= shr_m (shr_1 mrs) <= shr_m mrs.
Proof.
  destruct mrs as [m r s]. cbn [shr_m shr_1].
  destruct m as [|[p|p|]|[p|p|]]; cbn [shr_m]; lia.
Qed.

Lemma iter_shr_1_bounds (p : positive) (mrs : shr_record) :
  0 <= shr_m mrs -> 0 <= shr_m (iter_pos shr_1 p mrs) <= shr_m mrs.
Proof.
  revert mrs. induction p as [p IH|p IH|]; intros mrs Hm; cbn [iter_pos].
  - pose proof (shr_1_bounds mrs Hm). 
    pose proof (IH (shr_1 mrs) ltac:(lia)).
    pose proof (IH (iter_pos shr_1 p (shr_1 mrs)) ltac:(lia)). lia.
  - pose proof (IH mrs Hm).
    pose proof (IH (iter_pos shr_1 p mrs) ltac:(lia)). lia.
  - now apply shr_1_bounds.
Qed.

Lemma shr_bounds (mrs : shr_record) (e n : Z) :
  0 <= shr_m mrs ->
  0 <= shr_m (fst (shr mrs e n)) <= shr_m mrs
  /\ snd (shr mrs e n) = e + Z.max 0 n.
Proof.
  intros Hm. unfold shr. destruct n as [|p|p]; cbn [fst snd].
  - lia.
  - split; [now apply iter_shr_1_bounds|lia].
  - lia.
Qed.

(** Rounding to nearest even adds at most one unit. *)
Lemma round_nearest_even_bounds (m : Z) (l : location) :
  m <= round_nearest_even m l <= m + 1.
Proof.
  unfold round_nearest_even. destruct l as [|[| |]]; try lia.
  destruct (Z.even m); lia.
Qed.

Lemma shr_record_of_loc_m m l : shr_m (shr_record_of_loc m l) = m.
Proof. destruct l as [|[| |]]; reflexivity. Qed.

(** Rounding a small enough number never overflows. *)
Lemma binary_round_aux_finite (s : bool) (M : positive) (E : Z) :
  Zpos M < 2 ^ 106 -> E <= -104 ->
  match binary_round_aux prec emax s (Zpos M) E loc_Exact with
  | S754_zero _ | S754_finite _ _ _ => True
  | _ => False
  end.
Proof.
  intros HM HE. unfold binary_round_aux, shr_fexp.
  set (n1 := fexp prec emax (Zdigits2 (Zpos M) + E) - E).
  pose proof (shr_bounds (shr_record_of_loc (Zpos M) loc_Exact) E n1) as H1.
  rewrite shr_record_of_loc_m in H1. specialize (H1 ltac:(lia)).
  destruct (shr (shr_record_of_loc (Zpos M) loc_Exact) E n1) as [mrs' e'].
  cbn [fst snd] in H1. destruct H1 as [Hm' He'].
  pose proof (round_nearest_even_bounds (shr_m mrs') (loc_of_shr_record mrs')) as Hr.
  set (m2 := round_nearest_even (shr_m mrs') (loc_of_shr_record mrs')) in *.
  set (n2 := fexp prec emax (Zdigits2 m2 + e') - e').
  pose proof (shr_bounds (shr_record_of_loc m2 loc_Exact) e' n2) as H2.
  rewrite shr_record_of_loc_m in H2. specialize (H2 ltac:(lia)).
  destruct (shr (shr_record_of_loc m2 loc_Exact) e' n2) as [mrs'' e''].
  cbn [fst snd] in H2. destruct H2 as [Hm'' He''].
  assert (Hd1 : Zdigits2 (Zpos M) <= 106) by (apply Zdigits2_le; lia).
  assert (Hd2 : Zdigits2 m2 <= 107).
  { apply Zdigits2_le; [|lia]. split; [lia|].
    assert (2 ^ 107 = 2 * 2 ^ 106) by reflexivity. lia. }
  assert (Hd1' : 0 <= Zdigits2 (Zpos M)) by (cbn; lia).
  assert (He''b : e'' <= 971).
  { subst n1 n2. unfold fexp, emin, prec, emax in *. lia. }
  destruct (shr_m mrs'') as [|p|p]; [exact I| |lia].
  unfold prec, emax. destruct (Z.leb_spec e'' (1024 - 53)); [exact I|lia].
Qed.

(** [is_finite] in terms of the specification of binary64. *)
Lemma is_finite_sf (x : float) : is_finite x = true -> sf_finite (Prim2SF x).
Proof.
  unfold is_finite, is_nan, is_infinity. rewrite !FloatAxioms.eqb_spec, abs_spec.
  destruct (Prim2SF x) as [s|s| |s m e]; cbn; try exact (fun _ => I).
  - destruct s; discriminate.
  - discriminate.
Qed.

(** A finite float minus itself is the positive zero. *)
Lemma sub_diag (x : float) : is_finite x = true -> (x - x)%float = 0%float.
Proof.
  intros Hx. apply is_finite_sf in Hx. apply Prim2SF_inj. rewrite sub_spec.
  change (Prim2SF 0) with (S754_zero false).
  destruct (Prim2SF x) as [s|s| |s m e]; try contradiction.
  - destruct s; reflexivity.
  - unfold SF64sub, SFsub. rewrite Z.sub_diag. reflexivity.
Qed.

(** A float within [[-1, 1]] has an exponent of at most [-52]. *)
Lemma within_unit_sf (c : float) :
  within_unit c = true ->
  match Prim2SF c with
  | S754_zero _ => True
  | S754_finite _ m e => e <= -52 /\ Zpos m < 2 ^ 53
  | _ => False
  end.
Proof.
  unfold within_unit. rewrite FloatAxioms.leb_spec, abs_spec.
  pose proof (Prim2SF_valid c) as Hv.
  change (Prim2SF 1) with (S754_finite false 4503599627370496 (-52)).
  destruct (Prim2SF c) as [s|s| |s m e]; cbn [SFabs]; try exact (fun _ => I);
    try discriminate.
  unfold SFleb, SFcompare. intros Hle. split.
  - destruct (Z.compare_spec e (-52)); [lia|lia|discriminate].
  - cbn [valid_binary] in Hv. unfold bounded, canonical_mantissa in Hv.
    apply andb_true_iff in Hv as [Hc _]. apply Z.eqb_eq in Hc.
    pose proof (digits2_pos_bounds m) as [_ Hhi].
    assert (Hd : Zpos (digits2_pos m) <= 53) by (unfold fexp, emin, prec, emax in Hc; lia).
    eapply Z.lt_le_trans; [exact Hhi|]. apply Z.pow_le_mono_r; lia.
Qed.

(** The product of two floats within [[-1, 1]] is finite. *)
Lemma mul_within_unit (c1 c2 : float) :
  within_unit c1 = true -> within_unit c2 = true -> sf_finite (Prim2SF (c1 * c2)).
Proof.
  intros H1 H2. apply within_unit_sf in H1, H2. rewrite mul_spec.
  destruct (Prim2SF c1) as [s1|s1| |s1 m1 e1]; try contradiction;
    destruct (Prim2SF c2) as [s2|s2| |s2 m2 e2]; try contradiction;
    try exact I.
  destruct H1 as [He1 Hm1], H2 as [He2 Hm2].
  unfold SF64mul, SFmul.
  pose proof (binary_round_aux_finite (xorb s1 s2) (m1 * m2) (e1 + e2)) as Hb.
  unfold sf_finite. apply Hb; [|lia].
  rewrite Pos2Z.inj_mul. change (2 ^ 106) with (2 ^ 53 * 2 ^ 53). nia.
Qed.

(** [0.0 + p * 0.0] is the positive zero for a finite [p] of either
    sign. *)
Lemma add_zero_mul_zero (p : float) :
  sf_finite (Prim2SF p) -> (0 + p * 0)%float = 0%float.
Proof.
  intros Hp. apply Prim2SF_inj. rewrite add_spec, mul_spec.
  change (Prim2SF 0) with (S754_zero false).
  destruct (Prim2SF p) as [s|s| |s m e]; try contradiction; cbn.
  - destruct s; reflexivity.
  - destruct s; reflexivity.
Qed.

End Binary64.

Section SamePoint.

Context {D : Type} {dec : DecimalOps D} {libm : Libm}.
Variable remote : Remote.

(** Between a point and itself every term of the formula is a positive
    zero. *)
Lemma haversine_same_point (lat lon : float) :
  special_values libm ->
  is_finite lat = true -> is_finite lon = true ->
  haversine 6373 lat lon lat lon = Some 0%float.
Proof.
  intros [Hsin Hpow Hcos Hatan] Hlat Hlon. unfold haversine.
  rewrite (sub_diag lat Hlat), (sub_diag lon Hlon).
  change (0 / 2)%float with 0%float. rewrite Hsin, Hpow.
  destruct (Hcos lat Hlat) as (c & -> & Hc).
  rewrite (add_zero_mul_zero (c * c) (mul_within_unit c c Hc Hc)).
  change (math_sqrt 0) with (Return 0%float).
  change (math_sqrt (1 - 0)) with (Return 1%float).
  cbv beta iota. rewrite Hatan. reflexivity.
Qed.

(** C10: when the coordinate resolved for the address is the reference
    point itself and the canonical text does not hold the marker, the
    formula is evaluated and its result is the float [0.0]: the two
    differences are [0.0], so [a] is [0.0], the angle is [0.0] and the
    distance is [0.0]. *)
Theorem distance_to_reference_is_zero
    (w w1 w2 : World D) (address text : string) (ref_lon ref_lat : D)
    (lat1 lon1 : float) :
  special_values libm ->
  long_moscow_ring_road (self w) = Some ref_lon ->
  lat_moscow_ring_road (self w) = Some ref_lat ->
  find_coordinates remote address w = (Return (ref_lon, ref_lat), w1) ->
  find_address remote ref_lon ref_lat w1 = (Return (JString text), w2) ->
  str_in "MKAD" text = false ->
  radians ref_lat = Return lat1 ->
  radians ref_lon = Return lon1 ->
  is_finite lat1 = true ->
  is_finite lon1 = true ->
  calculate_distance remote (Some address) w = (Return (PyFloat 0), w2).
Proof.
  intros Hlibm Hlon Hlat Hfc Hfa Hmark Hr1 Hr2 Hf1 Hf2.
  assert (Hself : self w2 = self w).
  { pose proof (keeps_self_find_coordinates remote address w) as H1.
    pose proof (keeps_self_find_address remote ref_lon ref_lat w1) as H2.
    rewrite Hfc in H1. rewrite Hfa in H2. cbn [snd] in H1, H2. congruence. }
  rewrite calculate_distance_run, Hfc, Hfa. cbn [contains]. rewrite Hmark.
  rewrite <- Hself in Hlon, Hlat.
  pose proof (distance_branch_haversine w2 ref_lon ref_lat ref_lon ref_lat
                lat1 lon1 lat1 lon1 Hlon Hlat Hr1 Hr2 Hr1 Hr2) as Hd.
  now rewrite (haversine_same_point lat1 lon1 Hlibm Hf1 Hf2) in Hd.
Qed.

End SamePoint.

Lemma small_angle_special_values : special_values Mock.small_angle.
Proof.
  split; try reflexivity.
  intros x _. exists 1%float. split; reflexivity.
Qed.

(** On the mocked service the query ["the ring road itself"] resolves to
    the reference point, under a text without the marker: the distance is
    the float [0.0]. *)
Lemma distance_to_reference_is_zero_witness :
  fst (calculate_distance (libm := Mock.small_angle) Mock.remote
         (Some "the ring road itself") Mock.world) = Return (PyFloat 0).
Proof.
  refine (f_equal fst
    (distance_to_reference_is_zero (libm := Mock.small_angle) Mock.remote
       Mock.world _ _ "the ring road itself" "Moscow Ring Road"
       {| Mock.sign := false; Mock.coefficient := 37632206; Mock.exponent := -6 |}
       {| Mock.sign := false; Mock.coefficient := 55898947; Mock.exponent := -6 |}
       _ _ small_angle_special_values
       eq_refl eq_refl eq_refl eq_refl eq_refl eq_refl eq_refl eq_refl eq_refl)).
Defined.

(* ================================================================== *)
(** ** How many requests an operation sends *)
(* ================================================================== *)

Section Budget.

Context {D : Type} {dec : DecimalOps D} {libm : Libm}.
Variable remote : Remote.

Lemma keeps_world_ret {A} (a : A) : keeps_world (@ret D A a).
Proof. intros w. reflexivity. Qed.

Lemma keeps_world_lift {A} (o : outcome A) : keeps_world (@lift D A o).
Proof. intros w. reflexivity. Qed.

Lemma keeps_world_getattr {A} (field : YandexGeocoder D -> option A) :
  keeps_world (getattr field).
Proof. intros w. reflexivity. Qed.

Lemma keeps_world_bind {A B} (m : M D A) (k : A -> M D B) :
  keeps_world m -> (forall a, keeps_world (k a)) -> keeps_world (bind m k).
Proof.
  intros Hm Hk w. unfold bind. specialize (Hm w).
  destruct (m w) as [[a|e] w']; simpl in *; subst w'; [apply Hk|reflexivity].
Qed.

(** The formula reads the reference point and computes: it sends
    nothing and assigns nothing. *)
Lemma keeps_world_distance_branch (longitude latitude : D) :
  keeps_world (distance_branch longitude latitude).
Proof.
  unfold distance_branch.
  repeat first
    [ apply keeps_world_bind; [|intros ?]
    | apply keeps_world_ret
    | apply keeps_world_lift
    | apply keeps_world_getattr ].
Qed.

(** X1: [calculate_distance] sends the lookup of the address and, only
    when that lookup returned a coordinate, the lookup of that coordinate;
    it sends nothing else, whatever path it takes afterwards.  An
    exception of either lookup is the exception of [calculate_distance]. *)
Theorem calculate_distance_requests (w : World D) (key address : string) :
  api_key (self w) = Some key ->
  sent (snd (calculate_distance remote (Some address) w))
  = match fst (find_coordinates remote address w) with
    | Raise _ => (sent w ++ [geocode_request key address])%list
    | Return (lon, lat) =>
        (sent w ++ [geocode_request key address;
                    geocode_request key (py_str lon ++ "," ++ py_str lat)])%list
    end
  /\ (forall e,
        fst (find_coordinates remote address w) = Raise e ->
        fst (calculate_distance remote (Some address) w) = Raise e)
  /\ (forall lon lat w1 e,
        find_coordinates remote address w = (Return (lon, lat), w1) ->
        fst (find_address remote lon lat w1) = Raise e ->
        fst (calculate_distance remote (Some address) w) = Raise e).
Proof.
  intros Hkey. rewrite calculate_distance_run.
  rewrite (find_coordinates_run remote w key address Hkey). cbn [fst].
  repeat split.
  - destruct (read_coordinates address _) as [[lon lat]|e]; [|reflexivity].
    rewrite (find_address_run remote (after_request w key address) key lon lat Hkey).
    destruct (read_address _ _ _) as [canonical|e];
      [|cbn; now rewrite <- app_assoc].
    destruct (contains "MKAD" canonical) as [[|]|e];
      try (cbn; now rewrite <- app_assoc).
    rewrite keeps_world_distance_branch. cbn. now rewrite <- app_assoc.
  - intros e ->. reflexivity.
  - intros lon lat w1 e [= Hrc <-] Hfa. rewrite Hrc.
    destruct (find_address remote lon lat _) as [[canonical|e'] w2];
      cbn [fst] in *; [discriminate|now injection Hfa as ->].
Qed.

End Budget.

(** On the mocked service an unknown place costs one request and Red
    Square costs two. *)
Lemma calculate_distance_requests_witness :
  sent (snd (calculate_distance (libm := Mock.small_angle) Mock.remote
               (Some "nowhere") Mock.world))
  = [geocode_request "key" "nowhere"]
  /\ sent (snd (calculate_distance (libm := Mock.small_angle) Mock.remote
                  (Some "Red Square") Mock.world))
     = [geocode_request "key" "Red Square";
        geocode_request "key" "37.6173,55.7558"].
Proof.
  split.
  - exact (proj1 (calculate_distance_requests (libm := Mock.small_angle)
                    Mock.remote Mock.world "key" "nowhere" eq_refl)).
  - exact (proj1 (calculate_distance_requests (libm := Mock.small_angle)
                    Mock.remote Mock.world "key" "Red Square" eq_refl)).
Defined.

(* ================================================================== *)
(** ** What an exception of a lookup tells about the reply *)
(* ================================================================== *)

Section Causes.

Context {D : Type} {dec : DecimalOps D}.
Variable remote : Remote.

Lemma getitem_raises (v : json) (k : string) (e : exn) :
  getitem v k = Raise e -> named_error e = false.
Proof.
  destruct v; cbn; try (intros [= <-]; reflexivity).
  destruct (dict_get items k); [discriminate|intros [= <-]; reflexivity].
Qed.

Lemma getitem0_raises (v : json) (e : exn) :
  getitem0 v = Raise e -> named_error e = false.
Proof.
  destruct v as [| | | |[|c s]|[|x l]|]; cbn;
    try discriminate; intros [= <-]; reflexivity.
Qed.

Lemma features_of_raises (r : Response) (e : exn) :
  features_of r = Raise e -> named_error e = false.
Proof.
  unfold features_of, feature_member.
  destruct (json_body r) as [body|]; [|intros [= <-]; reflexivity].
  destruct (getitem body "response") as [response|e1] eqn:E1;
    [|intros [= <-]; exact (getitem_raises _ _ _ E1)].
  destruct (getitem response "GeoObjectCollection") as [collection|e2] eqn:E2;
    [|intros [= <-]; exact (getitem_raises _ _ _ E2)].
  apply getitem_raises.
Qed.

Lemma read_position_raises (data : json) (e : exn) :
  read_position data = Raise e -> named_error e = false.
Proof.
  unfold read_position.
  destruct (getitem0 data) as [feature|e0] eqn:E0;
    [|intros [= <-]; exact (getitem0_raises _ _ E0)].
  destruct (getitem feature "GeoObject") as [geo_object|e1] eqn:E1;
    [|intros [= <-]; exact (getitem_raises _ _ _ E1)].
  destruct (getitem geo_object "Point") as [point|e2] eqn:E2;
    [|intros [= <-]; exact (getitem_raises _ _ _ E2)].
  destruct (getitem point "pos") as [coordinates|e3] eqn:E3;
    [|intros [= <-]; exact (getitem_raises _ _ _ E3)].
  destruct coordinates; cbn; try (intros [= <-]; reflexivity).
  destruct (split_on " " s) as [|t1 [|t2 [|t3 ts]]];
    try (intros [= <-]; reflexivity).
  destruct (Decimal t1); [|intros [= <-]; reflexivity].
  destruct (Decimal t2); [discriminate|intros [= <-]; reflexivity].
Qed.

Lemma read_text_raises (data : json) (e : exn) :
  read_text data = Raise e -> named_error e = false.
Proof.
  unfold read_text.
  destruct (getitem0 data) as [feature|e0] eqn:E0;
    [|intros [= <-]; exact (getitem0_raises _ _ E0)].
  destruct (getitem feature "GeoObject") as [geo_object|e1] eqn:E1;
    [|intros [= <-]; exact (getitem_raises _ _ _ E1)].
  destruct (getitem geo_object "metaDataProperty") as [meta|e2] eqn:E2;
    [|intros [= <-]; exact (getitem_raises _ _ _ E2)].
  destruct (getitem meta "GeocoderMetaData") as [geocoder_meta|e3] eqn:E3;
    [|intros [= <-]; exact (getitem_raises _ _ _ E3)].
  apply getitem_raises.
Qed.

(** Any reader of the features that raises built-in exceptions only
    makes a lookup whose declared exceptions identify the reply. *)
Lemma lookup_errors_identify {A} (reader : json -> outcome A)
    (reply : option Response) (not_found : string) :
  (forall data e, reader data = Raise e -> named_error e = false) ->
  errors_identify
    (match read_reply reply with
     | Raise e => Raise e
     | Return response =>
         match feature_member response with
         | Raise e => Raise e
         | Return data =>
             if truthy data then reader data
             else Raise (NothingFound not_found)
         end
     end) reply not_found.
Proof.
  intros Hreader. destruct reply as [r|].
  2:{ cbn. repeat split; try discriminate; intros; 
      repeat match goal with H : exists _, _ |- _ => destruct H end;
      intuition discriminate. }
  destruct (Z.eq_dec (status_code r) 200) as [H200|Hne].
  - pose proof (read_reply_features r H200) as Hr.
    set (out := match read_reply (Some r) with Raise e => Raise e | Return response => _ end).
    assert (Hout : out = match features_of r with
                         | Raise e => Raise e
                         | Return data =>
                             if truthy data then reader data
                             else Raise (NothingFound not_found)
                         end).
    { subst out. rewrite <- Hr. destruct (read_reply (Some r)); [|reflexivity].
      destruct (feature_member a); reflexivity. }
    rewrite Hout. clear Hout out Hr.
    assert (Hbuiltin : forall e, named_error e = true ->
              (forall msg, e <> NothingFound msg) ->
              match features_of r with
              | Raise e0 => Raise e0
              | Return data =>
                  if truthy data then reader data
                  else Raise (NothingFound not_found)
              end <> @Raise A e).
    { intros e He Hnf Heq.
      destruct (features_of r) as [data|e0] eqn:Ef.
      - destruct (truthy data).
        + apply Hreader in Heq. congruence.
        + injection Heq as <-. now apply (Hnf not_found).
      - injection Heq as ->. apply features_of_raises in Ef. congruence. }
    repeat split.
    + intros Heq. now apply Hbuiltin in Heq.
    + intros (r' & [= <-] & H400). lia.
    + intros Heq. now apply Hbuiltin in Heq.
    + intros (r' & [= <-] & Hn & _). contradiction.
    + intros Heq. destruct (features_of r) as [data|e0] eqn:Ef.
      * destruct (truthy data) eqn:Et.
        -- apply Hreader in Heq. discriminate.
        -- injection Heq as <-. now exists r, data.
      * injection Heq as ->. apply features_of_raises in Ef. discriminate.
    + intros (r' & data & [= <-] & _ & Hf & Ht & ->). now rewrite Hf, Ht.
  - assert (Hout : read_reply (Some r)
                   = Raise (if status_code r =? 400 then InvalidKey
                            else UnexpectedResponse
                                   ("status_code=" ++ str_int (status_code r)
                                    ++ ", body=" ++ repr_bytes (content r)))).
    { unfold read_reply. destruct (Z.eqb_spec (status_code r) 200); [contradiction|].
      destruct (status_code r =? 400); reflexivity. }
    rewrite Hout. repeat split.
    + intros Heq. exists r. split; [reflexivity|].
      destruct (Z.eqb_spec (status_code r) 400); [assumption|discriminate].
    + intros (r' & [= <-] & H400). rewrite H400. reflexivity.
    + intros Heq. exists r.
      destruct (Z.eqb_spec (status_code r) 400); [discriminate|].
      injection Heq as <-. now repeat split.
    + intros (r' & [= <-] & _ & Hn4 & ->).
      destruct (Z.eqb_spec (status_code r) 400); [contradiction|reflexivity].
    + intros Heq. destruct (status_code r =? 400); discriminate.
    + intros (r' & data & [= <-] & H200 & _). contradiction.
Qed.

(** X2: when [find_coordinates] or [find_address] raises one of the
    three declared exceptions, the exception tells what the reply was:
    [InvalidKey] exactly for a status 400, [UnexpectedResponse] exactly for
    a status other than 200 and 400, [NothingFound] exactly for a 200
    response whose [featureMember] is false as a truth value; nothing read
    in a feature raises any of the three. *)
Theorem declared_errors_identify_reply
    {A B} {strA : PyStr A} {strB : PyStr B}
    (w : World D) (key address : string) (longitude : A) (latitude : B) :
  api_key (self w) = Some key ->
  errors_identify
    (fst (find_coordinates remote address w))
    (remote (sent w) (geocode_request key address))
    ("Nothing found for " ++ dquote ++ address ++ dquote)
  /\ errors_identify
       (fst (find_address remote longitude latitude w))
       (remote (sent w)
          (geocode_request key (py_str longitude ++ "," ++ py_str latitude)))
       ("Nothing found for " ++ dquote ++ py_str longitude
        ++ ", " ++ py_str latitude ++ dquote).
Proof.
  intros Hkey. split.
  - rewrite (find_coordinates_run remote w key address Hkey). cbn [fst].
    exact (lookup_errors_identify read_position _ _ read_position_raises).
  - rewrite (find_address_run remote w key longitude latitude Hkey). cbn [fst].
    exact (lookup_errors_identify read_text _ _ read_text_raises).
Qed.

End Causes.

(** On the mocked service [find_coordinates] raises [InvalidKey] for the
    rejected key, hence the status of the reply was 400. *)
Lemma declared_errors_identify_reply_witness :
  exists r,
    Mock.remote [] (geocode_request "bad-key" "Red Square") = Some r
    /\ status_code r = 400.
Proof.
  pose (w := {| self := {| api_key := Some "bad-key";
                           long_moscow_ring_road := None;
                           lat_moscow_ring_road := None |};
                sent := [] |} : World Mock.decimal).
  destruct (declared_errors_identify_reply Mock.remote w "bad-key" "Red Square"
              "1" "2" eq_refl) as [(Hkey & _) _].
  apply (proj1 Hkey). reflexivity.
Defined.

(* ================================================================== *)
(** ** Replies that do not follow the schema *)
(* ================================================================== *)

Section OffSchema.

Context {D : Type} {dec : DecimalOps D} {libm : Libm}.
Variable remote : Remote.

Lemma read_coordinates_200 (address : string) (r : Response) :
  status_code r = 200 ->
  read_coordinates address (Some r) =
    match features_of r with
    | Raise e => Raise e
    | Return data =>
        if truthy data then read_position data
        else Raise (NothingFound ("Nothing found for " ++ dquote ++ address ++ dquote))
    end.
Proof.
  intros H200. rewrite <- (read_reply_features r H200). unfold read_coordinates.
  destruct (read_reply (Some r)) as [response|e]; [|reflexivity].
  destruct (feature_member response); reflexivity.
Qed.

Lemma read_address_200 (lon lat : string) (r : Response) :
  status_code r = 200 ->
  read_address lon lat (Some r) =
    match features_of r with
    | Raise e => Raise e
    | Return data =>
        if truthy data then read_text data
        else Raise (NothingFound ("Nothing found for " ++ dquote ++ lon
                                  ++ ", " ++ lat ++ dquote))
    end.
Proof.
  intros H200. rewrite <- (read_reply_features r H200). unfold read_address.
  destruct (read_reply (Some r)) as [response|e]; [|reflexivity].
  destruct (feature_member response); reflexivity.
Qed.

Lemma without_list_position (data : json) (not_found : string) :
  without_list
    (if truthy data then read_position data else Raise (NothingFound not_found))
    data not_found.
Proof.
  destruct data as [|[|]|[|p|p]|f|[|c s]|l|[|item items]]; cbn; try reflexivity.
  destruct (PrimFloat.eqb f 0); reflexivity.
Qed.

Lemma without_list_text (data : json) (not_found : string) :
  without_list
    (if truthy data then read_text data else Raise (NothingFound not_found))
    data not_found.
Proof.
  destruct data as [|[|]|[|p|p]|f|[|c s]|l|[|item items]]; cbn; try reflexivity.
  destruct (PrimFloat.eqb f 0); reflexivity.
Qed.

(** X3: a [featureMember] that is not a list.  Both lookups report
    [None], [False], [0], [0.0], the empty string and the empty [dict]
    with [NothingFound], as they do the empty list; a non-empty [dict]
    makes them raise [KeyError], and a non-empty string, another number or
    [True] makes them raise [TypeError]. *)
Theorem feature_member_without_list
    {A B} {strA : PyStr A} {strB : PyStr B}
    (w : World D) (key address : string) (longitude : A) (latitude : B) :
  api_key (self w) = Some key ->
  (forall r data,
     remote (sent w) (geocode_request key address) = Some r ->
     status_code r = 200 ->
     features_of r = Return data ->
     without_list (fst (find_coordinates remote address w)) data
       ("Nothing found for " ++ dquote ++ address ++ dquote))
  /\ (forall r data,
        remote (sent w)
          (geocode_request key (py_str longitude ++ "," ++ py_str latitude)) = Some r ->
        status_code r = 200 ->
        features_of r = Return data ->
        without_list (fst (find_address remote longitude latitude w)) data
          ("Nothing found for " ++ dquote ++ py_str longitude
           ++ ", " ++ py_str latitude ++ dquote)).
Proof.
  intros Hkey. split; intros r data Hr H200 Hdata.
  - rewrite (find_coordinates_run remote w key address Hkey), Hr. cbn [fst].
    rewrite (read_coordinates_200 address r H200), Hdata.
    apply without_list_position.
  - rewrite (find_address_run remote w key longitude latitude Hkey), Hr. cbn [fst].
    rewrite (read_address_200 _ _ r H200), Hdata.
    apply without_list_text.
Qed.

(** X4: a 200 response whose body cannot be read down to
    [featureMember].  A body that is not JSON raises [JSONDecodeError], a
    missing [response], [GeoObjectCollection] or [featureMember] member
    raises [KeyError], and a body that is not an object raises
    [TypeError]; the exception leaves each of the three operations
    before any feature is looked at. *)
Theorem unreadable_body_raises
    (w : World D) (key location : string) (r : Response) :
  api_key (self w) = Some key ->
  remote (sent w) (geocode_request key location) = Some r ->
  status_code r = 200 ->
  (forall e,
     features_of r = Raise e ->
     fst (find_coordinates remote location w) = Raise e
     /\ fst (calculate_distance remote (Some location) w) = Raise e
     /\ (forall A B (strA : PyStr A) (strB : PyStr B) (lon : A) (lat : B),
           py_str lon ++ "," ++ py_str lat = location ->
           fst (find_address remote lon lat w) = Raise e))
  /\ (json_body r = None -> features_of r = Raise (Builtin JSONDecodeError))
  /\ (forall body,
        json_body r = Some body ->
        match body with
        | JObject items =>
            match dict_get items "response" with
            | None => features_of r = Raise (Builtin KeyError)
            | Some (JObject response) =>
                match dict_get response "GeoObjectCollection" with
                | None => features_of r = Raise (Builtin KeyError)
                | Some (JObject collection) =>
                    match dict_get collection "featureMember" with
                    | None => features_of r = Raise (Builtin KeyError)
                    | Some data => features_of r = Return data
                    end
                | Some _ => features_of r = Raise (Builtin TypeError)
                end
            | Some _ => features_of r = Raise (Builtin TypeError)
            end
        | _ => features_of r = Raise (Builtin TypeError)
        end).
Proof.
  intros Hkey Hr H200. split; [|split].
  - intros e Hfail. split; [|split].
    + rewrite (find_coordinates_run remote w key location Hkey), Hr. cbn [fst].
      now rewrite (read_coordinates_200 location r H200), Hfail.
    + pose proof (find_coordinates_run remote w key location Hkey) as Hfc.
      rewrite Hr, (read_coordinates_200 location r H200), Hfail in Hfc.
      now rewrite (calculate_distance_first_raise remote _ _ _ _ Hfc).
    + intros A B strA strB lon lat Hloc.
      rewrite (find_address_run remote w key lon lat Hkey), Hloc, Hr. cbn [fst].
      now rewrite (read_address_200 _ _ r H200), Hfail.
  - intros Hnone. unfold features_of. now rewrite Hnone.
  - intros body Hbody. unfold features_of, feature_member. rewrite Hbody.
    destruct body as [| | | | | |items]; try reflexivity. cbn [getitem].
    destruct (dict_get items "response") as [[| | | | | |response]|];
      try reflexivity.
    cbn [getitem].
    destruct (dict_get response "GeoObjectCollection") as [[| | | | | |collection]|];
      try reflexivity.
    cbn [getitem].
    destruct (dict_get collection "featureMember"); reflexivity.
Qed.

End OffSchema.

(** A [featureMember] that is [null] is reported as nothing found. *)
Lemma feature_member_without_list_witness :
  fst (find_coordinates (Stub.always (Stub.with_features JNull)) "Red Square"
         Mock.world)
  = Raise (NothingFound ("Nothing found for " ++ dquote ++ "Red Square" ++ dquote)).
Proof.
  exact (proj1 (feature_member_without_list
                  (Stub.always (Stub.with_features JNull)) Mock.world "key"
                  "Red Square" "1" "2" eq_refl)
           (Stub.with_features JNull) JNull eq_refl eq_refl eq_refl).
Defined.

(** A page of HTML served with status 200 raises [JSONDecodeError], and
    a JSON object without [response] raises [KeyError]. *)
Lemma unreadable_body_raises_witness :
  fst (find_coordinates (Stub.always Stub.html_page) "Red Square" Mock.world)
  = Raise (Builtin JSONDecodeError)
  /\ fst (calculate_distance (libm := Mock.small_angle)
            (Stub.always Stub.no_response_member) (Some "Red Square") Mock.world)
     = Raise (Builtin KeyError).
Proof.
  split.
  - destruct (unreadable_body_raises (libm := Mock.small_angle)
                (Stub.always Stub.html_page) Mock.world "key" "Red Square"
                Stub.html_page eq_refl eq_refl eq_refl) as (Hops & Hnone & _).
    exact (proj1 (Hops _ (Hnone eq_refl))).
  - destruct (unreadable_body_raises (libm := Mock.small_angle)
                (Stub.always Stub.no_response_member) Mock.world "key" "Red Square"
                Stub.no_response_member eq_refl eq_refl eq_refl) as (Hops & _ & Hbody).
    exact (proj1 (proj2 (Hops _ (Hbody _ eq_refl)))).
Defined.

(* ================================================================== *)
(** ** The position string *)
(* ================================================================== *)

Section Tokens.

Lemma split_on_not_nil (c : ascii) (s : string) : split_on c s <> [].
Proof.
  destruct s as [|a s]; cbn; [discriminate|].
  destruct (Ascii.eqb a c); [discriminate|].
  destruct (split_on c s); discriminate.
Qed.

(** [split] cuts at every separator: it returns one piece more than
    there are separators. *)
Lemma split_on_length (c : ascii) (s : string) :
  List.length (split_on c s) = S (count_char c s).
Proof.
  induction s as [|a s IH]; cbn; [reflexivity|].
  destruct (Ascii.eqb a c); cbn; [now rewrite IH|].
  destruct (split_on c s); cbn in *; [discriminate|exact IH].
Qed.

Lemma split_on_one (c : ascii) (s t : string) :
  split_on c s = [t] -> s = t /\ has_char c s = false.
Proof.
  revert t. induction s as [|a s IH]; cbn; intros t Hsplit.
  - now injection Hsplit as <-.
  - destruct (Ascii.eqb a c).
    + injection Hsplit as _ Hnil. now apply split_on_not_nil in Hnil.
    + destruct (split_on c s) as [|t' ts] eqn:E; [now apply split_on_not_nil in E|].
      injection Hsplit as <- ->. destruct (IH t' eq_refl) as [-> Hno].
      now split.
Qed.

(** Two pieces come from exactly one separator between them. *)
Lemma split_on_two (c : ascii) (s t1 t2 : string) :
  split_on c s = [t1; t2] ->
  s = t1 ++ String c t2 /\ has_char c t1 = false /\ has_char c t2 = false.
Proof.
  revert t1. induction s as [|a s IH]; cbn; intros t1 Hsplit; [discriminate|].
  destruct (Ascii.eqb_spec a c) as [->|Hne].
  - injection Hsplit as <- Hrest. destruct (split_on_one c s t2 Hrest) as [-> Hno].
    now repeat split.
  - destruct (split_on c s) as [|t' ts] eqn:E; [discriminate|].
    injection Hsplit as <- ->. destruct (IH t' eq_refl) as (-> & Hno1 & Hno2).
    repeat split; [|exact Hno2]. cbn.
    apply Ascii.eqb_neq in Hne. now rewrite Hne.
Qed.

End Tokens.

Section Position.

Context {D : Type} {dec : DecimalOps D}.

(** [find_coordinates] reads the position of the first feature and
    nothing else in the list. *)
Lemma read_position_first (first : json) (others : list json) :
  read_position (JArray (first :: others)) =
    match pos_of first with
    | Raise e => Raise e
    | Return coordinates =>
        match split_space coordinates with
        | Raise e => Raise e
        | Return [longitude; latitude] =>
            match Decimal longitude with
            | None => Raise (Builtin InvalidOperation)
            | Some lon =>
                match Decimal latitude with
                | None => Raise (Builtin InvalidOperation)
                | Some lat => Return (lon, lat)
                end
            end
        | Return _ => Raise (Builtin ValueError)
        end
    end.
Proof.
  unfold read_position, pos_of. cbn [getitem0].
  destruct (getitem first "GeoObject") as [geo_object|e]; [|reflexivity].
  destruct (getitem geo_object "Point"); reflexivity.
Qed.

Lemma read_text_first (first : json) (others : list json) :
  read_text (JArray (first :: others)) = text_of first.
Proof. reflexivity. Qed.

(** A position can only be read in a non-empty list. *)
Lemma read_position_list (data : json) (p : D * D) :
  read_position data = Return p -> exists first others, data = JArray (first :: others).
Proof.
  destruct data as [| | | |[|c s]|[|first others]|]; try discriminate.
  intros _. now exists first, others.
Qed.

Variable remote : Remote.

(** X5: [find_coordinates] returns a pair only in one situation: the
    reply has status 200, its [featureMember] is a non-empty list, and the
    [pos] of the first feature is a string made of two pieces without
    spaces joined by one space, each of which [Decimal] accepts; the pair
    is then the two [Decimal]s, in that order. *)
Theorem find_coordinates_returns_only
    (w : World D) (key address : string) (lon lat : D) :
  api_key (self w) = Some key ->
  fst (find_coordinates remote address w) = Return (lon, lat) ->
  exists r first others token1 token2,
    remote (sent w) (geocode_request key address) = Some r
    /\ status_code r = 200
    /\ features_of r = Return (JArray (first :: others))
    /\ pos_of first = Return (JString (token1 ++ " " ++ token2))
    /\ has_char " " token1 = false
    /\ has_char " " token2 = false
    /\ Decimal token1 = Some lon
    /\ Decimal token2 = Some lat.
Proof.
  intros Hkey. rewrite (find_coordinates_run remote w key address Hkey). cbn [fst].
  destruct (remote (sent w) (geocode_request key address)) as [r|]; [|discriminate].
  destruct (Z.eq_dec (status_code r) 200) as [H200|Hne].
  2:{ unfold read_coordinates, read_reply.
      destruct (Z.eqb_spec (status_code r) 200); [contradiction|].
      destruct (status_code r =? 400); discriminate. }
  rewrite (read_coordinates_200 address r H200).
  destruct (features_of r) as [data|e] eqn:Hdata; [|discriminate].
  destruct (truthy data); [|discriminate].
  intros Hpos. destruct (read_position_list data _ Hpos) as (first & others & ->).
  rewrite read_position_first in Hpos.
  destruct (pos_of first) as [coordinates|e] eqn:Hcoord; [|discriminate].
  destruct coordinates as [| | | |s| |]; try discriminate. cbn [split_space] in Hpos.
  destruct (split_on " " s) as [|token1 [|token2 [|token3 tokens]]] eqn:Hsplit;
    try discriminate.
  destruct (Decimal token1) as [lon'|] eqn:Hlon; [|discriminate].
  destruct (Decimal token2) as [lat'|] eqn:Hlat; [|discriminate].
  injection Hpos as <- <-.
  destruct (split_on_two " " s token1 token2 Hsplit) as (-> & Hno1 & Hno2).
  exists r, first, others, token1, token2. now repeat split.
Qed.

(** X6: with a 200 response whose first feature holds a [pos] string,
    [find_coordinates] raises [ValueError] exactly when the number of
    spaces in that string is not one: no space, two words separated by two
    spaces, a leading or a trailing space all fail the unpacking of the
    pair. *)
Theorem pos_needs_one_space
    (w : World D) (key address : string) (r : Response)
    (first : json) (others : list json) (pos : string) :
  api_key (self w) = Some key ->
  remote (sent w) (geocode_request key address) = Some r ->
  status_code r = 200 ->
  features_of r = Return (JArray (first :: others)) ->
  pos_of first = Return (JString pos) ->
  (fst (find_coordinates remote address w) = Raise (Builtin ValueError)
   <-> count_char " " pos <> 1%nat).
Proof.
  intros Hkey Hr H200 Hdata Hpos.
  rewrite (find_coordinates_run remote w key address Hkey), Hr. cbn [fst].
  rewrite (read_coordinates_200 address r H200), Hdata. cbn [truthy].
  rewrite read_position_first, Hpos. cbn [split_space].
  pose proof (split_on_length " " pos) as Hlen.
  destruct (split_on " " pos) as [|token1 [|token2 [|token3 tokens]]];
    cbn [List.length] in Hlen.
  - discriminate.
  - split; [intros _; lia|reflexivity].
  - split; [|lia].
    destruct (Decimal token1); [|discriminate].
    destruct (Decimal token2); discriminate.
  - split; [intros _; lia|reflexivity].
Qed.

End Position.

Section OwnField.

Context {D : Type} {dec : DecimalOps D}.

(** X7: each lookup reads its own field of the first feature.  Two 200
    responses whose first features hold the same [pos] give
    [find_coordinates] the same outcome, and two whose first features hold
    the same [text] give [find_address] the same outcome, whatever else
    the first feature holds and whatever the other features are. *)
Theorem lookups_read_their_own_field
    {A B} {strA : PyStr A} {strB : PyStr B}
    (remote1 remote2 : Remote) (w : World D) (key location : string)
    (r1 r2 : Response) (first1 first2 : json) (others1 others2 : list json) :
  api_key (self w) = Some key ->
  remote1 (sent w) (geocode_request key location) = Some r1 ->
  remote2 (sent w) (geocode_request key location) = Some r2 ->
  status_code r1 = 200 ->
  status_code r2 = 200 ->
  features_of r1 = Return (JArray (first1 :: others1)) ->
  features_of r2 = Return (JArray (first2 :: others2)) ->
  (pos_of first1 = pos_of first2 ->
   find_coordinates remote1 location w = find_coordinates remote2 location w)
  /\ (text_of first1 = text_of first2 ->
      forall (longitude : A) (latitude : B),
        py_str longitude ++ "," ++ py_str latitude = location ->
        find_address remote1 longitude latitude w
        = find_address remote2 longitude latitude w).
Proof.
  intros Hkey Hr1 Hr2 H1 H2 Hf1 Hf2. split.
  - intros Hpos.
    rewrite (find_coordinates_run remote1 w key location Hkey), Hr1.
    rewrite (find_coordinates_run remote2 w key location Hkey), Hr2.
    rewrite (read_coordinates_200 location r1 H1), Hf1.
    rewrite (read_coordinates_200 location r2 H2), Hf2.
    cbn [truthy]. now rewrite !read_position_first, Hpos.
  - intros Htext longitude latitude Hloc.
    rewrite (find_address_run remote1 w key longitude latitude Hkey).
    rewrite (find_address_run remote2 w key longitude latitude Hkey).
    rewrite Hloc, Hr1, Hr2.
    rewrite (read_address_200 _ _ r1 H1), Hf1.
    rewrite (read_address_200 _ _ r2 H2), Hf2.
    cbn [truthy]. now rewrite !read_text_first, Htext.
Qed.

End OwnField.

(** On the mocked service the pair returned for Red Square comes from a
    [pos] of two pieces joined by one space. *)
Lemma find_coordinates_returns_only_witness :
  exists token1 token2 first,
    pos_of first = Return (JString (token1 ++ " " ++ token2))
    /\ Decimal token1
       = Some {| Mock.sign := false; Mock.coefficient := 376173; Mock.exponent := -4 |}
    /\ Decimal token2
       = Some {| Mock.sign := false; Mock.coefficient := 557558; Mock.exponent := -4 |}.
Proof.
  assert (Hrun : fst (find_coordinates Mock.remote "Red Square" Mock.world)
                 = Return ({| Mock.sign := false; Mock.coefficient := 376173;
                              Mock.exponent := -4 |},
                           {| Mock.sign := false; Mock.coefficient := 557558;
                              Mock.exponent := -4 |})) by reflexivity.
  destruct (find_coordinates_returns_only Mock.remote Mock.world "key" "Red Square"
              _ _ eq_refl Hrun)
    as (r & first & others & token1 & token2 & _ & _ & _ & Hpos & _ & _ & H1 & H2).
  now exists token1, token2, first.
Defined.

(** A [pos] with two spaces between the numbers raises [ValueError]. *)
Lemma pos_needs_one_space_witness :
  fst (find_coordinates
         (Stub.always (Stub.with_features (JArray [Stub.only_pos "37.6173  55.7558"])))
         "Red Square" Mock.world)
  = Raise (Builtin ValueError).
Proof.
  apply (proj2 (pos_needs_one_space
                  (Stub.always (Stub.with_features
                                  (JArray [Stub.only_pos "37.6173  55.7558"])))
                  Mock.world "key" "Red Square" _ _ [] "37.6173  55.7558"
                  eq_refl eq_refl eq_refl eq_refl eq_refl)).
  discriminate.
Defined.

(** A feature without any [metaDataProperty] gives [find_coordinates]
    what the full feature of the mocked service gives it. *)
Lemma lookups_read_their_own_field_witness :
  find_coordinates
    (Stub.always (Stub.with_features (JArray [Stub.only_pos "37.6173 55.7558"])))
    "Red Square" Mock.world
  = find_coordinates Mock.remote "Red Square" Mock.world.
Proof.
  apply (proj1 (lookups_read_their_own_field (A := string) (B := string)
                  (Stub.always (Stub.with_features
                                  (JArray [Stub.only_pos "37.6173 55.7558"])))
                  Mock.remote Mock.world "key" "Red Square" _ _
                  (Stub.only_pos "37.6173 55.7558")
                  (Mock.feature "37.6173 55.7558" "Moscow, Russia") [] []
                  eq_refl eq_refl eq_refl eq_refl eq_refl eq_refl eq_refl)).
  reflexivity.
Defined.

(* ================================================================== *)
(** ** The integer zero and the float results *)
(* ================================================================== *)

Section Marker.

Lemma prefix_inv (n h : string) :
  String.prefix n h = true -> exists rest, h = n ++ rest.
Proof.
  revert h. induction n as [|a n IH]; intros h Hp.
  - now exists h.
  - destruct h as [|b h]; [discriminate|]. cbn in Hp.
    destruct (ascii_dec a b) as [->|]; [|discriminate].
    destruct (IH h Hp) as [rest ->]. now exists rest.
Qed.

(** [needle in hay] holds only when [hay] is built around [needle]. *)
Lemma str_in_inv (n h : string) :
  str_in n h = true -> exists before after, h = before ++ n ++ after.
Proof.
  induction h as [|b h IH].
  - intros Hin. destruct n; [now exists "", ""|discriminate].
  - change (str_in n (String b h))
      with (String.prefix n (String b h) || str_in n h).
    intros Hin. apply orb_true_iff in Hin as [Hp|Hlater].
    + destruct (prefix_inv _ _ Hp) as [rest ->]. now exists "", rest.
    + destruct (IH Hlater) as (before & after & ->).
      now exists (String b before), after.
Qed.

Context {D : Type} {dec : DecimalOps D} {libm : Libm}.
Variable remote : Remote.

Lemma bind_never_returns {A B} (m : M D A) (k : A -> M D B) (v : B) :
  (forall a w, fst (k a w) <> Return v) ->
  forall w, fst (bind m k w) <> Return v.
Proof.
  intros Hk w. unfold bind. destruct (m w) as [[a|e] w']; [apply Hk|discriminate].
Qed.

(** The formula returns a float, never an integer. *)
Lemma distance_branch_not_int (longitude latitude : D) (z : Z) (w : World D) :
  fst (distance_branch longitude latitude w) <> Return (PyInt z).
Proof.
  revert w. unfold distance_branch.
  repeat (apply bind_never_returns; intros ?).
  intros w. discriminate.
Qed.

(** X8: an integer result of [calculate_distance] is always [0] and
    always comes from the marker: both lookups succeeded and ["MKAD"] is in
    the canonical value, which for a string means that the text is built
    around the four letters.  Every distance that the formula computes is
    returned as a float, a zero distance included. *)
Theorem int_result_comes_from_marker
    (w w2 : World D) (address : option string) (z : Z) :
  calculate_distance remote address w = (Return (PyInt z), w2) ->
  z = 0
  /\ exists addr lon lat w1 canonical,
       address = Some addr
       /\ find_coordinates remote addr w = (Return (lon, lat), w1)
       /\ find_address remote lon lat w1 = (Return canonical, w2)
       /\ contains "MKAD" canonical = Return true
       /\ (forall text,
             canonical = JString text ->
             exists before after, text = before ++ "MKAD" ++ after).
Proof.
  destruct address as [addr|]; [|discriminate].
  rewrite calculate_distance_run.
  destruct (find_coordinates remote addr w) as [[[lon lat]|e] w1] eqn:Hfc;
    [|discriminate].
  destruct (find_address remote lon lat w1) as [[canonical|e] w2'] eqn:Hfa;
    [|discriminate].
  destruct (contains "MKAD" canonical) as [[|]|e] eqn:Hin; [| |discriminate].
  - intros [= <- <-]. split; [reflexivity|].
    exists addr, lon, lat, w1, canonical.
    split; [reflexivity|]. split; [exact Hfc|]. split; [exact Hfa|].
    split; [exact Hin|].
    intros text ->. cbn in Hin. injection Hin as Hin. now apply str_in_inv.
  - intros Hd. exfalso.
    apply (distance_branch_not_int lon lat z w2'). now rewrite Hd.
Qed.

End Marker.

(** On the mocked service the integer [0] returned for a place on the
    ring road comes with two lookups and a canonical value that holds the
    marker. *)
Lemma int_result_comes_from_marker_witness :
  exists addr lon lat w1 canonical,
    Some "MKAD, 1st kilometre" = Some addr
    /\ find_coordinates Mock.remote addr Mock.world = (Return (lon, lat), w1)
    /\ find_address Mock.remote lon lat w1
       = (Return canonical,
          snd (calculate_distance (libm := Mock.small_angle) Mock.remote
                 (Some "MKAD, 1st kilometre") Mock.world))
    /\ contains "MKAD" canonical = Return true
    /\ (forall text,
          canonical = JString text ->
          exists before after, text = before ++ "MKAD" ++ after).
Proof.
  assert (Hrun : calculate_distance (libm := Mock.small_angle) Mock.remote
                   (Some "MKAD, 1st kilometre") Mock.world
                 = (Return (PyInt 0),
                    snd (calculate_distance (libm := Mock.small_angle) Mock.remote
                           (Some "MKAD, 1st kilometre") Mock.world)))
    by reflexivity.
  exact (proj2 (int_result_comes_from_marker Mock.remote Mock.world _ _ 0 Hrun)).
Defined.

(* ================================================================== *)
(** ** Reading the message of [UnexpectedResponse] back *)
(* ================================================================== *)

Section Diagnostics.

(** The escape of a byte is read back as that byte, whatever follows. *)
Lemma unescape_repr_byte (quote a : ascii) (rest : string) :
  quote = squote \/ quote = ascii_of_nat 34 ->
  unescape_one quote (repr_byte quote a ++ rest) = Some (a, rest).
Proof.
  intros [->| ->];
    destruct a as [[|] [|] [|] [|] [|] [|] [|] [|]]; reflexivity.
Qed.

Lemma repr_bytes_body_inj (quote : ascii) (s1 s2 : string) :
  quote = squote \/ quote = ascii_of_nat 34 ->
  repr_bytes_body quote s1 ++ String quote EmptyString
  = repr_bytes_body quote s2 ++ String quote EmptyString ->
  s1 = s2.
Proof.
  intros Hq. revert s2.
  induction s1 as [|a s1 IH]; intros [|b s2]; cbn [repr_bytes_body];
    rewrite ?app_string_assoc; intros Heq.
  - reflexivity.
  - apply (f_equal (unescape_one quote)) in Heq.
    rewrite (unescape_repr_byte quote b _ Hq) in Heq.
    cbn in Heq. rewrite Ascii.eqb_refl in Heq. discriminate.
  - apply (f_equal (unescape_one quote)) in Heq.
    rewrite (unescape_repr_byte quote a _ Hq) in Heq.
    cbn in Heq. rewrite Ascii.eqb_refl in Heq. discriminate.
  - apply (f_equal (unescape_one quote)) in Heq.
    rewrite !(unescape_repr_byte quote _ _ Hq) in Heq.
    injection Heq as -> Heq. f_equal. now apply IH.
Qed.

(** Two byte strings with the same [repr] are the same. *)
Lemma repr_bytes_inj (s1 s2 : string) : repr_bytes s1 = repr_bytes s2 -> s1 = s2.
Proof.
  unfold repr_bytes.
  destruct (has_char squote s1 && negb (has_char (ascii_of_nat 34) s1));
    destruct (has_char squote s2 && negb (has_char (ascii_of_nat 34) s2));
    intros [= Heq]; try discriminate;
    (eapply repr_bytes_body_inj; [|exact Heq]; auto).
Qed.

Lemma app_string_cancel (p x y : string) : p ++ x = p ++ y -> x = y.
Proof. induction p as [|a p IH]; cbn; [auto|intros [= Heq]; auto]. Qed.

Context {D : Type}.
Variable remote : Remote.

(** X9: the message of [UnexpectedResponse] loses nothing.  When
    [request_geocoder] raises it with the same message for two responses,
    the two responses have the same status and the same raw body, byte for
    byte. *)
Theorem unexpected_response_message_determines_reply
    (w1 w2 : World D) (key1 key2 location1 location2 msg : string)
    (r1 r2 : Response) :
  api_key (self w1) = Some key1 ->
  api_key (self w2) = Some key2 ->
  remote (sent w1) (geocode_request key1 location1) = Some r1 ->
  remote (sent w2) (geocode_request key2 location2) = Some r2 ->
  fst (request_geocoder remote location1 w1) = Raise (UnexpectedResponse msg) ->
  fst (request_geocoder remote location2 w2) = Raise (UnexpectedResponse msg) ->
  status_code r1 = status_code r2 /\ content r1 = content r2.
Proof.
  intros Hkey1 Hkey2 Hr1 Hr2.
  rewrite (request_geocoder_run remote w1 key1 location1 Hkey1), Hr1.
  rewrite (request_geocoder_run remote w2 key2 location2 Hkey2), Hr2.
  cbn [fst].
  assert (Hmsg : forall r,
             read_reply (Some r) = Raise (UnexpectedResponse msg) ->
             msg = "status_code=" ++ str_int (status_code r)
                   ++ ", body=" ++ repr_bytes (content r)).
  { intros r. unfold read_reply.
    destruct (status_code r =? 200).
    - destruct (json_body r) as [body|]; [|discriminate].
      intros Hget. now apply getitem_raises in Hget.
    - destruct (status_code r =? 400); [discriminate|now intros [= <-]]. }
  intros H1 H2. apply Hmsg in H1, H2. rewrite H1 in H2.
  pose proof (status_message_inj _ _ _ _ H2) as Hstatus.
  split; [exact Hstatus|].
  rewrite Hstatus in H2.
  apply app_string_cancel in H2. apply app_string_cancel in H2.
  apply app_string_cancel in H2. now apply repr_bytes_inj.
Qed.

End Diagnostics.

(** Two 503 responses reported with the same message carry the same
    body. *)
Lemma unexpected_response_message_determines_reply_witness :
  status_code (Stub.unavailable "try later") = 503
  /\ content (Stub.unavailable "try later") = "try later".
Proof.
  destruct (unexpected_response_message_determines_reply
              (Stub.always (Stub.unavailable "try later"))
              Mock.world Mock.world "key" "key" "Red Square" "Red Square"
              "status_code=503, body=b'try later'"
              (Stub.unavailable "try later") (Stub.unavailable "try later")
              eq_refl eq_refl eq_refl eq_refl eq_refl eq_refl) as [Hs Hc].
  split; [reflexivity|exact Hc].
Defined.

(* ================================================================== *)
(** ** What an exception of the constructor tells about the reply *)
(* ================================================================== *)

Section Constructor.

Context {D : Type} {dec : DecimalOps D}.
Variable remote : Remote.

(** What is made of a returned value does not change what the
    exceptions stand for. *)
Lemma errors_identify_map {A B} (f : A -> outcome B) (out : outcome A)
    (reply : option Response) (not_found : string) :
  (forall a e, f a <> Raise e) ->
  errors_identify out reply not_found ->
  errors_identify
    (match out with Return a => f a | Raise e => Raise e end) reply not_found.
Proof.
  intros Hf (Hkey & Hunexpected & Hnothing).
  assert (Hsame : forall e,
             match out with Return a => f a | Raise e0 => Raise e0 end = Raise e
             <-> out = Raise e).
  { intros e. destruct out as [a|e0].
    - split; [intros Hr; now apply Hf in Hr|discriminate].
    - split; intros [= ->]; reflexivity. }
  split; [|split].
  - rewrite Hsame. exact Hkey.
  - intros msg. rewrite Hsame. apply Hunexpected.
  - intros msg. rewrite Hsame. apply Hnothing.
Qed.

(** X10: the constructor raises what its lookup of the reference
    address raises, so its declared exceptions identify the reply to that
    one request: [InvalidKey] exactly for a status 400,
    [UnexpectedResponse] exactly for another status than 200 and 400, and
    [NothingFound], naming ["Moscow Ring Road"], exactly for a 200 response
    whose [featureMember] is false as a truth value. *)
Theorem constructor_errors_identify_reply (key : string) (log : list Request) :
  errors_identify
    (fst (new remote key log))
    (remote log (geocode_request key "Moscow Ring Road"))
    ("Nothing found for " ++ dquote ++ "Moscow Ring Road" ++ dquote).
Proof.
  rewrite new_run. cbn [fst].
  pose proof (lookup_errors_identify read_position
                (remote log (geocode_request key "Moscow Ring Road"))
                ("Nothing found for " ++ dquote ++ "Moscow Ring Road" ++ dquote)
                read_position_raises) as Hid.
  apply (errors_identify_map
           (fun p : D * D =>
              let (lon, lat) := p in
              Return {| api_key := Some key;
                        long_moscow_ring_road := Some lon;
                        lat_moscow_ring_road := Some lat |})) in Hid.
  - exact Hid.
  - intros [lon lat] e. discriminate.
Qed.

End Constructor.
